(** * find-me-nest: nearest metro station, offer extraction and sheet sink

    A shallow embedding of [parse_offers.py] and [fetch_offers.py].

    Python values that come out of [json.loads] are modelled by [pyval];
    Python floats are IEEE binary64 numbers, modelled by Rocq's primitive
    floats, so that [<], [<=] and [+] are the machine operations, NaN
    included.  Exceptions are modelled by the [result] type, calls to the
    external services by a log that is threaded through the code.  The C
    library functions behind [math.sin], [math.cos] and [math.atan2], the
    table [warsaw_metro_stations] (its module is not part of the sources),
    the text form of floats and containers and the two external services
    are taken as parameters. *)

From Stdlib Require Import ZArith Floats List String Ascii Bool Lia.
From Stdlib Require Import DecimalString.
Import ListNotations.

Set Warnings "-register-all,-inexact-float".

(** ** Python values and exceptions *)

Inductive pyval : Type :=
| PNone
| PBool (b : bool)
| PInt (z : Z)
| PFloat (f : float)
| PStr (s : string)
| PList (l : list pyval)
| PDict (d : list (string * pyval)).

Inductive exn : Type :=
| KeyError
| IndexError
| TypeError
| ValueError
| OverflowError
| ServiceError.

Inductive result (A : Type) : Type :=
| Ok (a : A)
| Raise (e : exn).

Arguments Ok {A} a.
Arguments Raise {A} e.

Module ResultMonad.

Definition bind {A B : Type} (m : result A) (k : A -> result B) : result B :=
  match m with
  | Ok a => k a
  | Raise e => Raise e
  end.

Declare Scope result_scope.
Delimit Scope result_scope with result.

Notation "x <- m ;; k" := (bind m (fun x => k))
  (at level 61, m at next level, right associativity) : result_scope.

End ResultMonad.
Import ResultMonad.

(** ** Calls to the external services

    The code talks to two services: the Distance Matrix API of Google Maps
    and a language model.  A computation of type [io A] may raise and
    appends every call it makes to a log; the log survives an exception,
    as a call that was made stays made. *)

Inductive travel_mode : Type := Walking | Transit.

Inductive call : Type :=
| DistanceMatrix (mode : travel_mode) (origin destination : pyval * pyval)
| LanguageModel (description : string).

Definition io (A : Type) : Type := list call -> result A * list call.

Module IOMonad.

Definition ret {A : Type} (a : A) : io A := fun log => (Ok a, log).

Definition bind {A B : Type} (m : io A) (k : A -> io B) : io B :=
  fun log =>
    match m log with
    | (Ok a, log') => k a log'
    | (Raise e, log') => (Raise e, log')
    end.

(** A pure computation that may raise. *)
Definition lift {A : Type} (r : result A) : io A := fun log => (r, log).

(** One call to a service: logged, then answered. *)
Definition invoke {A : Type} (c : call) (answer : result A) : io A :=
  fun log => (answer, log ++ [c]).

(** [try: body except Exception: handler]. *)
Definition try_except {A : Type} (body : io A) (handler : exn -> io A) : io A :=
  fun log =>
    match body log with
    | (Ok a, log') => (Ok a, log')
    | (Raise e, log') => handler e log'
    end.

Declare Scope io_scope.
Delimit Scope io_scope with io.

Notation "x <- m ;; k" := (bind m (fun x => k))
  (at level 61, m at next level, right associativity) : io_scope.

End IOMonad.

(** ** The order of binary64 numbers

    [<?] and [<=?] on primitive floats are specified through [SFcompare].
    Away from NaN that comparison is a lexicographic order on (class,
    exponent, mantissa); [sf_rank] makes the triple explicit. *)

Module FloatRank.

Local Open Scope Z_scope.

Definition sf_rank (f : spec_float) : Z * Z * Z :=
  match f with
  | S754_nan => (0, 0, 0)
  | S754_zero _ => (0, 0, 0)
  | S754_infinity true => (-2, 0, 0)
  | S754_infinity false => (2, 0, 0)
  | S754_finite true m e => (-1, - e, Z.neg m)
  | S754_finite false m e => (1, e, Z.pos m)
  end.

Definition lex_compare (a b : Z * Z * Z) : comparison :=
  let '(a1, a2, a3) := a in
  let '(b1, b2, b3) := b in
  match a1 ?= b1 with
  | Eq => match a2 ?= b2 with
          | Eq => a3 ?= b3
          | c => c
          end
  | c => c
  end.

Definition sf_is_nan (f : spec_float) : bool :=
  match f with S754_nan => true | _ => false end.

(** A float is an ordinary distance when it lies below [float("inf")]:
    this excludes NaN and the sentinel itself. *)
Definition below_inf (d : float) : bool := (d <? infinity)%float.

End FloatRank.
Import FloatRank.

(** ** Python numerics used by [calculate_distance] *)

Module PyMath.

Local Open Scope result_scope.
Local Open Scope float_scope.

(** [int] to [float]: round to nearest even, [OverflowError] when the
    integer is too large for a binary64. *)
Definition float_of_int (z : Z) : result float :=
  let r := SF2Prim (binary_normalize prec emax z 0%Z false) in
  if is_infinity r then Raise OverflowError else Ok r.

(** What the [math] functions do with their argument: a [float] is used as
    it is, an [int] or [bool] is converted, anything else that [json.loads]
    can produce is a [TypeError]. *)
Definition as_double (v : pyval) : result float :=
  match v with
  | PFloat f => Ok f
  | PInt z => float_of_int z
  | PBool b => Ok (if b then 1 else 0)
  | PNone | PStr _ | PList _ | PDict _ => Raise TypeError
  end.

Definition pi : float := 0x1.921fb54442d18p+1.
Definition degToRad : float := pi / 180.

(** [math.radians(x)]. *)
Definition radians (v : pyval) : result float :=
  x <- as_double v ;;
  Ok (x * degToRad).

(** The wrapper [math] puts around a one-argument C function that cannot
    overflow: a NaN result of a number, and an infinite result of a finite
    number, are a [ValueError]. *)
Definition math_1 (func : float -> float) (x : float) : result float :=
  let r := func x in
  if is_nan r && negb (is_nan x) then Raise ValueError
  else if is_infinity r && is_finite x then Raise ValueError
  else Ok r.

(** The same for a two-argument function. *)
Definition math_2 (func : float -> float -> float) (x y : float)
  : result float :=
  let r := func x y in
  if is_nan r then
    if negb (is_nan x) && negb (is_nan y) then Raise ValueError else Ok r
  else if is_infinity r then
    if is_finite x && is_finite y then Raise OverflowError else Ok r
  else Ok r.

(** [math.sqrt]: the correctly rounded square root. *)
Definition math_sqrt (x : float) : result float := math_1 PrimFloat.sqrt x.

(** [x ** 2] on floats, with the square taken as the rounded product
    [x * x]; an overflow is an [OverflowError].  Python computes the power
    with the C function [pow], which need not be correctly rounded: with
    such a library the two can differ in the last bit. *)
Definition pow2 (x : float) : result float :=
  let r := x * x in
  if is_infinity r && is_finite x then Raise OverflowError else Ok r.

End PyMath.
Import PyMath.
Local Open Scope result_scope.

(** ** The station index and the nearest-station query *)

Definition coords : Type := (float * float)%type.
Definition station_table : Type := list (string * coords).

(** [d[k]] for a dictionary with string keys, in insertion order. *)
Fixpoint dict_get {V : Type} (d : list (string * V)) (k : string) : result V :=
  match d with
  | [] => Raise KeyError
  | (k', v) :: rest => if String.eqb k' k then Ok v else dict_get rest k
  end.

Section GeoIndex.

(** The C library's [sin], [cos] and [atan2]. *)
Variable libm_sin libm_cos : float -> float.
Variable libm_atan2 : float -> float -> float.

(** [metro_stations.warsaw_metro_stations]: station name to (lat, lon), in
    the order the dictionary literal lists them. *)
Variable warsaw_metro_stations : station_table.

Local Open Scope float_scope.

Definition math_sin : float -> result float := math_1 libm_sin.
Definition math_cos : float -> result float := math_1 libm_cos.
Definition math_atan2 : float -> float -> result float := math_2 libm_atan2.

(** [calculate_distance(lat1, lon1, lat2, lon2)]: the Haversine formula. *)
Definition calculate_distance (lat1 lon1 lat2 lon2 : pyval) : result float :=
  let R := 6371 in
  lat1 <- radians lat1 ;;
  lon1 <- radians lon1 ;;
  lat2 <- radians lat2 ;;
  lon2 <- radians lon2 ;;
  let dlat := lat2 - lat1 in
  let dlon := lon2 - lon1 in
  s1 <- math_sin (dlat / 2) ;;
  s1 <- pow2 s1 ;;
  c1 <- math_cos lat1 ;;
  c2 <- math_cos lat2 ;;
  s2 <- math_sin (dlon / 2) ;;
  s2 <- pow2 s2 ;;
  let a := s1 + c1 * c2 * s2 in
  y <- math_sqrt a ;;
  x <- math_sqrt (1 - a) ;;
  t <- math_atan2 y x ;;
  let c := 2 * t in
  let distance := R * c in
  Ok distance.


(** The distance from a query point to one entry of the table. *)
Definition station_distance (lat lon : pyval) (c : coords) : result float :=
  calculate_distance lat lon (PFloat (fst c)) (PFloat (snd c)).

(** The distance to a table entry is an ordinary number: its computation
    raises nothing and the value lies below the initial [float("inf")]. *)
Definition measurable (lat lon : pyval) (entry : string * coords) : bool :=
  match station_distance lat lon (snd entry) with
  | Ok d => below_inf d
  | Raise _ => false
  end.

(** The loop of [find_closest_metro_station], from the state
    ([closest_station], [min_distance]) over the remaining items. *)
Fixpoint scan_stations (lat lon : pyval) (items : station_table)
    (closest_station : option string) (min_distance : float)
  : result (option string) :=
  match items with
  | [] => Ok closest_station
  | (station, c) :: rest =>
      distance <- station_distance lat lon c ;;
      if distance <? min_distance
      then scan_stations lat lon rest (Some station) distance
      else scan_stations lat lon rest closest_station min_distance
  end.

(** [find_closest_metro_station(lat, lon)]; [None] is Python's [None]. *)
Definition find_closest_metro_station (lat lon : pyval)
  : result (option string) :=
  scan_stations lat lon warsaw_metro_stations None infinity.

(** [warsaw_metro_stations[closest_station]]: [None] is not a key. *)
Definition station_lookup (closest_station : option string) : result coords :=
  match closest_station with
  | None => Raise KeyError
  | Some name => dict_get warsaw_metro_stations name
  end.

(** [should_process_offer(lat, lon)]. *)
Definition should_process_offer (lat lon : pyval)
  : result (bool * option string * coords) :=
  closest_station <- find_closest_metro_station lat lon ;;
  station_coords <- station_lookup closest_station ;;
  distance <- calculate_distance lat lon
                (PFloat (fst station_coords)) (PFloat (snd station_coords)) ;;
  Ok (distance <=? 1, closest_station, station_coords).

End GeoIndex.

(** ** Python operations on JSON values *)

Module Py.

Local Open Scope string_scope.
Local Open Scope result_scope.

(** The newline character of ["\n"]. *)
Definition nl : string := String (ascii_of_nat 10) EmptyString.

(** [obj[key]] with a string key: only a dictionary can be subscripted by a
    string. *)
Definition getitem (obj : pyval) (key : string) : result pyval :=
  match obj with
  | PDict d => dict_get d key
  | PNone | PBool _ | PInt _ | PFloat _ | PStr _ | PList _ => Raise TypeError
  end.

(** The characters of a string.  A string is held as its UTF-8 bytes; a
    character is a leading byte with the continuation bytes that follow
    it. *)
Definition is_continuation (c : ascii) : bool :=
  match c with
  | Ascii _ _ _ _ _ _ false true => true
  | _ => false
  end.

Fixpoint split_characters (s : string) : string * list string :=
  match s with
  | EmptyString => (EmptyString, [])
  | String c rest =>
      let '(pending, characters) := split_characters rest in
      if is_continuation c then (String c pending, characters)
      else (EmptyString, String c pending :: characters)
  end.

Definition characters (s : string) : list string :=
  let '(pending, characters) := split_characters s in
  match pending with
  | EmptyString => characters
  | String _ _ => pending :: characters
  end.

(** [obj[i]] with a literal index [0] or [1].  The keys of a dictionary
    that comes from JSON are strings, so an integer is never one. *)
Definition getindex (obj : pyval) (i : nat) : result pyval :=
  match obj with
  | PList l =>
      match nth_error l i with
      | Some v => Ok v
      | None => Raise IndexError
      end
  | PStr s =>
      match nth_error (characters s) i with
      | Some ch => Ok (PStr ch)
      | None => Raise IndexError
      end
  | PDict _ => Raise KeyError
  | PNone | PBool _ | PInt _ | PFloat _ => Raise TypeError
  end.

(** The items a [for] loop visits. *)
Definition iterate (obj : pyval) : result (list pyval) :=
  match obj with
  | PList l => Ok l
  | PDict d => Ok (map (fun kv => PStr (fst kv)) d)
  | PStr s => Ok (map PStr (characters s))
  | PNone | PBool _ | PInt _ | PFloat _ => Raise TypeError
  end.

(** Truth value of an object in an [if]. *)
Definition truthy (obj : pyval) : bool :=
  match obj with
  | PNone => false
  | PBool b => b
  | PInt z => negb (z =? 0)%Z
  | PFloat f => negb (f =? 0)%float
  | PStr s => negb (String.eqb s "")
  | PList l => match l with [] => false | _ :: _ => true end
  | PDict d => match d with [] => false | _ :: _ => true end
  end.

(** [obj == "literal"]: only an equal string compares equal to a string. *)
Definition eq_str (obj : pyval) (literal : string) : bool :=
  match obj with
  | PStr s => String.eqb s literal
  | _ => false
  end.

(** [obj in [lit1, lit2, ...]] for a list of string literals. *)
Definition in_strs (obj : pyval) (literals : list string) : bool :=
  existsb (eq_str obj) literals.

(** A part of ["sep".join(parts)]: every part must be a string. *)
Definition as_str (obj : pyval) : result string :=
  match obj with
  | PStr s => Ok s
  | _ => Raise TypeError
  end.

Fixpoint join (sep : string) (parts : list string) : string :=
  match parts with
  | [] => ""
  | [p] => p
  | p :: rest => p ++ sep ++ join sep rest
  end.

Section Text.

(** [float(s)] on a string: [None] stands for the [ValueError] of a string
    that is not a number. *)
Variable parse_float : string -> option float.

(** [str(obj)] for floats, lists and dictionaries. *)
Variable repr : pyval -> string.

(** The builtin [float(obj)]. *)
Definition float_of (obj : pyval) : result float :=
  match obj with
  | PFloat f => Ok f
  | PInt z => float_of_int z
  | PBool b => Ok (if b then 1%float else 0%float)
  | PStr s =>
      match parse_float s with
      | Some f => Ok f
      | None => Raise ValueError
      end
  | PNone | PList _ | PDict _ => Raise TypeError
  end.

(** [str(obj)], which is also what [{obj}] in an f-string produces. *)
Definition str (obj : pyval) : string :=
  match obj with
  | PStr s => s
  | PNone => "None"
  | PBool true => "True"
  | PBool false => "False"
  | PInt z => NilZero.string_of_int (Z.to_int z)
  | PFloat _ | PList _ | PDict _ => repr obj
  end.

End Text.

(** A name that is a string, or [None]. *)
Definition of_name (name : option string) : pyval :=
  match name with
  | Some s => PStr s
  | None => PNone
  end.

End Py.

(** ** Enrichment providers *)

(** The Google Maps client: the answer of [distance_matrix] for a mode, an
    origin and a destination is a JSON document, or the call raises. *)
Definition gmaps : Type :=
  travel_mode -> pyval * pyval -> pyval * pyval -> result pyval.

(** The language model behind [OfferAnalyzer]: the three answers, or the
    call raises. *)
Definition language_model : Type := string -> result (pyval * pyval * pyval).

Module Providers.

Import IOMonad.
Local Open Scope string_scope.

Definition NA : pyval := PStr "N/A".

Definition distance_matrix (gmaps_client : gmaps) (mode : travel_mode)
    (origin destination : pyval * pyval) : io pyval :=
  invoke (DistanceMatrix mode origin destination)
         (gmaps_client mode origin destination).

Local Open Scope result_scope.

(** [res["rows"][0]["elements"][0]]. *)
Definition first_element (res : pyval) : result pyval :=
  rows <- Py.getitem res "rows" ;;
  row <- Py.getindex rows 0 ;;
  elements <- Py.getitem row "elements" ;;
  Py.getindex elements 0.

(** [res[...]["duration"]["text"] if res[...]["status"] == "OK" else "N/A"]:
    the condition is evaluated first. *)
Definition duration_text (res : pyval) : result pyval :=
  element <- first_element res ;;
  status <- Py.getitem element "status" ;;
  if Py.eq_str status "OK" then
    element <- first_element res ;;
    duration <- Py.getitem element "duration" ;;
    Py.getitem duration "text"
  else Ok NA.

Local Open Scope io_scope.

(** [get_travel_times(gmaps_client, origin_lat, origin_lon, dest_lat,
    dest_lon)]. *)
Definition get_travel_times (gmaps_client : gmaps)
    (origin_lat origin_lon dest_lat dest_lon : pyval) : io (pyval * pyval) :=
  try_except
    (walking_result <- distance_matrix gmaps_client Walking
                         (origin_lat, origin_lon) (dest_lat, dest_lon) ;;
     transit_result <- distance_matrix gmaps_client Transit
                         (origin_lat, origin_lon) (dest_lat, dest_lon) ;;
     walking_time <- lift (duration_text walking_result) ;;
     transit_time <- lift (duration_text transit_result) ;;
     ret (walking_time, transit_time))
    (fun _ => ret (NA, NA)).

(** The result of [analyze_offer_with_llm]. *)
Record analysis : Type := {
  analysis_available_from : pyval;
  analysis_total_monthly_cost : pyval;
  analysis_key_advantages : pyval
}.

(** [analyze_offer_with_llm(description)]. *)
Definition analyze_offer_with_llm (lm : language_model) (description : string)
  : io analysis :=
  try_except
    (answer <- invoke (LanguageModel description) (lm description) ;;
     let '(available_from, total_monthly_cost, key_advantages) := answer in
     ret {| analysis_available_from := available_from;
            analysis_total_monthly_cost := total_monthly_cost;
            analysis_key_advantages := key_advantages |})
    (fun _ =>
       ret {| analysis_available_from := PStr "Error in analysis";
              analysis_total_monthly_cost := PStr "Error in analysis";
              analysis_key_advantages := PStr "Error in analysis" |}).

End Providers.
Import Providers.

(** ** Offer extraction *)

(** The dictionary [extract_offer_data] returns, key by key. *)
Record offer_data : Type := {
  closest_metro : option string;
  base_cost : float;
  total_cost : float;
  full_url : pyval;
  area : pyval;
  address : string;
  walking_time : pyval;
  transit_time : pyval;
  description : pyval;
  rent : float;
  offer_id : pyval;
  slug : pyval;
  available_from : pyval;
  total_monthly_cost : pyval;
  key_advantages : pyval
}.

(** The variables the [if should_process] statement assigns. *)
Record enrichment : Type := {
  e_walking_time : pyval;
  e_transit_time : pyval;
  e_available_from : pyval;
  e_total_monthly_cost : pyval;
  e_key_advantages : pyval;
  e_comprehensive_description : pyval
}.

Section Extraction.

Variable libm_sin libm_cos : float -> float.
Variable libm_atan2 : float -> float -> float.
Variable warsaw_metro_stations : station_table.
Variable parse_float : string -> option float.
Variable repr : pyval -> string.

Local Open Scope string_scope.
Local Open Scope result_scope.

Local Abbreviation str := (Py.str repr).

(** [obj[k1][k2]...]. *)
Definition path (obj : pyval) (keys : list string) : result pyval :=
  fold_left (fun acc key => o <- acc ;; Py.getitem o key) keys (Ok obj).

(** The loop over [ad["characteristics"]] that lists the property details:
    price, rent and area are skipped. *)
Fixpoint detail_lines (characteristics : list pyval) : result (list string) :=
  match characteristics with
  | [] => Ok []
  | char :: rest =>
      key <- Py.getitem char "key" ;;
      if negb (Py.in_strs key ["price"; "rent"; "m"]) then
        label <- Py.getitem char "label" ;;
        value <- Py.getitem char "localizedValue" ;;
        lines <- detail_lines rest ;;
        Ok (("- " ++ str label ++ ": " ++ str value) :: lines)
      else detail_lines rest
  end.

(** The [if ad["features"]:] block. *)
Definition feature_lines (ad : pyval) : result (list string) :=
  features <- Py.getitem ad "features" ;;
  if Py.truthy features then
    features <- Py.getitem ad "features" ;;
    items <- Py.iterate features ;;
    Ok ((Py.nl ++ "Features:") :: map (fun feature => "- " ++ str feature) items)
  else Ok [].

(** The text assembled for the language model. *)
Definition comprehensive_description (ad : pyval)
    (closest_station : option string) (walking_time transit_time : pyval)
  : result string :=
  title <- Py.getitem ad "title" ;;
  city <- path ad ["location"; "address"; "city"; "name"] ;;
  district <- path ad ["location"; "address"; "district"; "name"] ;;
  street <- path ad ["location"; "address"; "street"; "name"] ;;
  characteristics <- Py.getitem ad "characteristics" ;;
  characteristics <- Py.iterate characteristics ;;
  details <- detail_lines characteristics ;;
  features <- feature_lines ad ;;
  advertiser <- Py.getitem ad "advertiserType" ;;
  created <- Py.getitem ad "createdAt" ;;
  modified <- Py.getitem ad "modifiedAt" ;;
  original <- Py.getitem ad "description" ;;
  original <- Py.as_str original ;;
  Ok (Py.join Py.nl
        (["Title: " ++ str title;
          "Location: " ++ str city ++ ", " ++ str district;
          "Address: " ++ str street;
          "Closest Metro: " ++ str (Py.of_name closest_station);
          "Walking time from metro: " ++ str walking_time;
          "Transit time from metro: " ++ str transit_time;
          Py.nl ++ "Property Details:"]
         ++ details
         ++ features
         ++ [Py.nl ++ "Additional Information:";
             "- Advertiser Type: " ++ str advertiser;
             "- Created: " ++ str created;
             "- Modified: " ++ str modified;
             Py.nl ++ "Description:";
             original])).

(** [float(ad["characteristics"][i]["value"])]. *)
Definition characteristic_value (ad : pyval) (i : nat) : result float :=
  characteristics <- Py.getitem ad "characteristics" ;;
  char <- Py.getindex characteristics i ;;
  value <- Py.getitem char "value" ;;
  Py.float_of parse_float value.

(** The loop that looks for the area: the value of the first characteristic
    labelled "Powierzchnia", "N/A" when there is none. *)
Fixpoint find_area (characteristics : list pyval) : result pyval :=
  match characteristics with
  | [] => Ok NA
  | feature :: rest =>
      label <- Py.getitem feature "label" ;;
      if Py.eq_str label "Powierzchnia" then Py.getitem feature "value"
      else find_area rest
  end.

Fixpoint as_strs (parts : list pyval) : result (list string) :=
  match parts with
  | [] => Ok []
  | p :: rest =>
      s <- Py.as_str p ;;
      strs <- as_strs rest ;;
      Ok (s :: strs)
  end.

(** Street, district and city, those that are not empty, joined by commas. *)
Definition full_address (ad : pyval) : result string :=
  street <- path ad ["location"; "address"; "street"; "name"] ;;
  district <- path ad ["location"; "address"; "district"; "name"] ;;
  city <- path ad ["location"; "address"; "city"; "name"] ;;
  address_parts <- as_strs (filter Py.truthy [street; district; city]) ;;
  Ok (Py.join ", " address_parts).

Import IOMonad.
Local Open Scope io_scope.

(** The [if should_process: ... else: ...] statement.  The call of
    [analyze_offer_with_llm] is commented out in the source: the three
    answers are the literal "N/A". *)
Definition enrich (ad lat lon : pyval) (gmaps_client : gmaps)
    (should_process : bool) (closest_station : option string)
    (station_coords : coords) : io enrichment :=
  if should_process then
    times <- get_travel_times gmaps_client
               (PFloat (fst station_coords)) (PFloat (snd station_coords))
               lat lon ;;
    text <- lift (comprehensive_description ad closest_station
                    (fst times) (snd times)) ;;
    let llm_analysis :=
      {| analysis_available_from := NA;
         analysis_total_monthly_cost := NA;
         analysis_key_advantages := NA |} in
    ret {| e_walking_time := fst times;
           e_transit_time := snd times;
           e_available_from := analysis_available_from llm_analysis;
           e_total_monthly_cost := analysis_total_monthly_cost llm_analysis;
           e_key_advantages := analysis_key_advantages llm_analysis;
           e_comprehensive_description := PStr text |}
  else
    original <- lift (Py.getitem ad "description") ;;
    ret {| e_walking_time := NA;
           e_transit_time := NA;
           e_available_from := NA;
           e_total_monthly_cost := NA;
           e_key_advantages := NA;
           e_comprehensive_description := original |}.

(** The statements of [extract_offer_data] that follow the [if]: costs,
    area, URL, identifiers and address, and the dictionary returned. *)
Definition assemble (ad : pyval) (closest_station : option string)
    (enriched : enrichment) : result offer_data :=
  (base_cost <- characteristic_value ad 0 ;;
   rent <- characteristic_value ad 1 ;;
   let total_cost := (base_cost + rent)%float in
   characteristics <- Py.getitem ad "characteristics" ;;
   characteristics <- Py.iterate characteristics ;;
   area <- find_area characteristics ;;
   full_url <- Py.getitem ad "url" ;;
   offer_id <- Py.getitem ad "id" ;;
   slug <- Py.getitem ad "slug" ;;
   full_address <- full_address ad ;;
   Ok {| closest_metro := closest_station;
         base_cost := base_cost;
         total_cost := total_cost;
         full_url := full_url;
         area := area;
         address := full_address;
         walking_time := e_walking_time enriched;
         transit_time := e_transit_time enriched;
         description := e_comprehensive_description enriched;
         rent := rent;
         offer_id := offer_id;
         slug := slug;
         available_from := e_available_from enriched;
         total_monthly_cost := e_total_monthly_cost enriched;
         key_advantages := e_key_advantages enriched |})%result.

(** The first statements of [extract_offer_data]: the advertisement and
    its coordinates. *)
Definition offer_coordinates (data : pyval) : result (pyval * pyval * pyval) :=
  (ad <- path data ["props"; "pageProps"; "ad"] ;;
   lat <- path ad ["location"; "coordinates"; "latitude"] ;;
   lon <- path ad ["location"; "coordinates"; "longitude"] ;;
   Ok (ad, lat, lon))%result.

(** [extract_offer_data(data, gmaps_client)]. *)
Definition extract_offer_data (data : pyval) (gmaps_client : gmaps)
  : io offer_data :=
  located <- lift (offer_coordinates data) ;;
  let '(ad, lat, lon) := located in
  checked <- lift (should_process_offer libm_sin libm_cos libm_atan2
                     warsaw_metro_stations lat lon) ;;
  let '(should_process, closest_station, station_coords) := checked in
  enriched <- enrich ad lat lon gmaps_client
                should_process closest_station station_coords ;;
  lift (assemble ad closest_station enriched).

End Extraction.

(** ** The sheet: appending an offer *)

Inductive fill : Type := GreenFill | RedFill.

(** The first worksheet of the spreadsheet: its rows of cells, top to
    bottom, and the background colours set on cells of column A, by row
    number. *)
Record worksheet : Type := {
  ws_rows : list (list pyval);
  ws_fills : list (nat * fill)
}.

Module Sink.

Local Open Scope string_scope.

(** [data["walking_time"] != "N/A"]. *)
Definition meets_criteria (data : offer_data) : bool :=
  negb (Py.eq_str (walking_time data) "N/A").

Definition status (data : offer_data) : string :=
  if meets_criteria data then "GREEN" else "RED".

Definition row_data (data : offer_data) : list pyval :=
  [ PStr (status data);
    Py.of_name (closest_metro data);
    PFloat (base_cost data);
    PFloat (total_cost data);
    full_url data;
    area data;
    PStr (address data);
    walking_time data;
    transit_time data;
    PFloat (rent data);
    offer_id data;
    slug data;
    available_from data;
    total_monthly_cost data;
    key_advantages data ].

(** [save_to_sheets(data, spreadsheet_id, credentials_file)], on the
    worksheet the two arguments designate, when every call to the
    spreadsheet service succeeds: the row is appended below the last one
    and its first cell is coloured.  [save_to_sheets_calls] below is the
    function with calls that may raise. *)
Definition save_to_sheets (data : offer_data) (ws : worksheet) : worksheet :=
  let rows := (ws_rows ws ++ [row_data data])%list in
  let last_row := List.length rows in
  {| ws_rows := rows;
     ws_fills := (ws_fills ws ++
       [(last_row, if meets_criteria data then GreenFill else RedFill)])%list |}.

End Sink.
Import Sink.

(** ** One run of the per-offer script *)

Section PerOffer.

Variable libm_sin libm_cos : float -> float.
Variable libm_atan2 : float -> float -> float.
Variable warsaw_metro_stations : station_table.
Variable parse_float : string -> option float.
Variable repr : pyval -> string.

(** The [try] block of [main] in [parse_offers.py], with the configuration
    present and a spreadsheet service whose calls all succeed: [fetched]
    is what [fetch_offer_details(slug)] produced.  The result is the exit
    status, the worksheet and the calls made. *)
Definition process_offer (fetched : result pyval) (gmaps_client : gmaps)
    (ws : worksheet) (log : list call) : Z * worksheet * list call :=
  match fetched with
  | Raise _ => (1%Z, ws, log)
  | Ok data =>
      match extract_offer_data libm_sin libm_cos libm_atan2
              warsaw_metro_stations parse_float repr data gmaps_client log with
      | (Ok offer, log') => (0%Z, save_to_sheets offer ws, log')
      | (Raise _, log') => (1%Z, ws, log')
      end
  end.

End PerOffer.

(** ** Discovery: the work list of new offers *)

Section Discovery.

(** [str(obj)] for floats and containers. *)
Variable repr : pyval -> string.

(** The text the spreadsheet service reports for a stored cell value. *)
Variable cell_text : pyval -> string.

Local Open Scope string_scope.
Local Open Scope result_scope.

(** [worksheet.col_values(col)]: the text of that column's cell in every
    row, empty where a row is shorter. *)
Definition col_values (ws : worksheet) (col : nat) : list string :=
  map (fun row =>
         match nth_error row (col - 1) with
         | Some v => cell_text v
         | None => ""
         end)
      (ws_rows ws).

(** [get_existing_offers()]: the identifiers in column K below the header
    row, as a set; the empty set when the sheet cannot be read. *)
Definition get_existing_offers (sheet : result worksheet) : list string :=
  match sheet with
  | Ok ws => tl (col_values ws 11)
  | Raise _ => []
  end.

(** [str(offer["id"]) not in existing_offers]. *)
Definition is_new (existing_offers : list string) (id : pyval) : bool :=
  negb (existsb (String.eqb (Py.str repr id)) existing_offers).

(** The loop that keeps the offers not yet in the spreadsheet. *)
Fixpoint new_offers (offers : list pyval) (existing_offers : list string)
  : result (list pyval) :=
  match offers with
  | [] => Ok []
  | offer :: rest =>
      id <- Py.getitem offer "id" ;;
      if is_new existing_offers id then
        kept <- new_offers rest existing_offers ;;
        Ok (offer :: kept)
      else new_offers rest existing_offers
  end.

(** [[offer["slug"] for offer in new_offers]]. *)
Fixpoint slugs_of (offers : list pyval) : result (list pyval) :=
  match offers with
  | [] => Ok []
  | offer :: rest =>
      slug <- Py.getitem offer "slug" ;;
      slugs <- slugs_of rest ;;
      Ok (slug :: slugs)
  end.

(** The body of the [try] block of [fetch_offers_list], from the parsed
    search page on. *)
Definition list_new_slugs (data : pyval) (sheet : result worksheet)
  : result (list pyval) :=
  offers <- path data ["props"; "pageProps"; "data"; "searchAds"; "items"] ;;
  let existing_offers := get_existing_offers sheet in
  offers <- Py.iterate offers ;;
  kept <- new_offers offers existing_offers ;;
  slugs_of kept.

(** [fetch_offers_list()]: [page] is the parsed search page, or the
    exception of the request; any exception yields the empty list. *)
Definition fetch_offers_list (page : result pyval) (sheet : result worksheet)
  : list pyval :=
  match (data <- page ;; list_new_slugs data sheet) with
  | Ok slugs => slugs
  | Raise _ => []
  end.

End Discovery.

(** ** Sample data

    Concrete instances of the parameters, on which the definitions above
    can be run: a small station table, a listing as the portal serves it,
    and Distance Matrix clients that answer, fail softly or raise. *)

Module Sample.

Local Open Scope string_scope.
Local Open Scope float_scope.

(** Truncated power series in place of the C library; exact at [0], where
    [sin 0 = 0] and [atan2 0 1 = 0], and close for the small angles that
    occur between points of one city. *)
Definition series_sin (x : float) : float :=
  let x2 := x * x in
  x * (1 - x2 / 6 * (1 - x2 / 20 * (1 - x2 / 42))).

Definition series_cos (x : float) : float :=
  let x2 := x * x in
  1 - x2 / 2 * (1 - x2 / 12 * (1 - x2 / 30 * (1 - x2 / 56))).

Definition series_atan2 (y x : float) : float :=
  let t := y / x in
  t * (1 - t * t / 3 * (1 - 3 * t * t / 5)).

(** [float(s)] for the decimal integers the listing carries. *)
Definition parse_decimal (s : string) : option float :=
  match NilZero.int_of_string s with
  | Some i => Some (SF2Prim (binary_normalize prec emax (Z.of_int i) 0%Z false))
  | None => None
  end.

Definition repr_opaque (obj : pyval) : string := "<object>".

Definition stations : station_table :=
  [ ("Centrum", (52.2297, 21.0122));
    ("Politechnika", (52.2189, 21.0153));
    ("Wilanowska", (52.1810, 21.0232)) ].

Definition characteristic (key label value localized : string) : pyval :=
  PDict [ ("key", PStr key); ("label", PStr label);
          ("value", PStr value); ("localizedValue", PStr localized) ].

Definition named (name : string) : pyval := PDict [ ("name", PStr name) ].

(** The advertisement of a listing at the given coordinates: price 3000,
    rent 500. *)
Definition ad_at (lat lon : float) : pyval :=
  PDict
    [ ("id", PInt 65432100);
      ("slug", PStr "mieszkanie-2-pokoje-ID4abcd");
      ("url", PStr "https://www.otodom.pl/pl/oferta/mieszkanie-2-pokoje-ID4abcd");
      ("title", PStr "Mieszkanie 2 pokoje przy metrze");
      ("location",
        PDict
          [ ("coordinates",
              PDict [ ("latitude", PFloat lat); ("longitude", PFloat lon) ]);
            ("address",
              PDict [ ("street", named "Marszalkowska");
                      ("district", named "Srodmiescie");
                      ("city", named "Warszawa") ]) ]);
      ("characteristics",
        PList [ characteristic "price" "Cena" "3000" "3000 zl";
                characteristic "rent" "Czynsz" "500" "500 zl";
                characteristic "m" "Powierzchnia" "45" "45 m2";
                characteristic "rooms_num" "Liczba pokoi" "2" "2" ]);
      ("features", PList [ PStr "balkon"; PStr "winda" ]);
      ("advertiserType", PStr "private");
      ("createdAt", PStr "2025-05-01T10:00:00+02:00");
      ("modifiedAt", PStr "2025-05-02T09:30:00+02:00");
      ("description", PStr "Dwa pokoje, blisko metra.") ].

Definition listing_at (lat lon : float) : pyval :=
  PDict [ ("props", PDict [ ("pageProps", PDict [ ("ad", ad_at lat lon) ]) ]) ].

(** A listing at the very coordinates of the station "Centrum". *)
Definition listing_near : pyval := listing_at 52.2297 21.0122.

(** A listing in Bialoleka, some ten kilometres from the nearest station of
    the table. *)
Definition listing_far : pyval := listing_at 52.3200 21.0300.

(** A Distance Matrix answer with one element. *)
Definition element_ok (text : string) : pyval :=
  PDict [ ("rows",
            PList [ PDict [ ("elements",
              PList [ PDict [ ("status", PStr "OK");
                              ("duration", PDict [ ("text", PStr text) ]) ] ]) ] ]) ].

Definition element_failed (status : string) : pyval :=
  PDict [ ("rows",
            PList [ PDict [ ("elements",
              PList [ PDict [ ("status", PStr status) ] ]) ] ]) ].

(** Both lookups succeed. *)
Definition client_ok : gmaps :=
  fun mode _ _ =>
    match mode with
    | Walking => Ok (element_ok "7 mins")
    | Transit => Ok (element_ok "4 mins")
    end.

(** Walking succeeds, transit has a non-success status. *)
Definition client_no_transit : gmaps :=
  fun mode _ _ =>
    match mode with
    | Walking => Ok (element_ok "7 mins")
    | Transit => Ok (element_failed "ZERO_RESULTS")
    end.

(** Walking has a non-success status, transit succeeds. *)
Definition client_no_walking : gmaps :=
  fun mode _ _ =>
    match mode with
    | Walking => Ok (element_failed "ZERO_RESULTS")
    | Transit => Ok (element_ok "4 mins")
    end.

(** Walking succeeds, the transit call raises. *)
Definition client_transit_raises : gmaps :=
  fun mode _ _ =>
    match mode with
    | Walking => Ok (element_ok "7 mins")
    | Transit => Raise ServiceError
    end.

(** A worksheet with its header row only. *)
Definition header : list pyval :=
  map PStr [ "status"; "closest_metro"; "base_cost"; "total_cost"; "url";
             "area"; "address"; "walking_time"; "transit_time"; "rent";
             "offer_id"; "slug"; "available_from"; "total_monthly_cost";
             "key_advantages" ].

Definition sheet_with_header : worksheet :=
  {| ws_rows := [ header ]; ws_fills := [] |}.


(** A search result item. *)
Definition item (id : Z) (slug : string) : pyval :=
  PDict [ ("id", PInt id); ("slug", PStr slug) ].

Definition search_page (items : list pyval) : pyval :=
  PDict [ ("props", PDict [ ("pageProps", PDict [ ("data",
    PDict [ ("searchAds", PDict [ ("items", PList items) ]) ]) ]) ]) ].

(** Two stations at the same place, under different names. *)
Definition twin_stations : station_table :=
  [ ("Swietokrzyska M1", (52.2352, 21.0084));
    ("Swietokrzyska M2", (52.2352, 21.0084));
    ("Centrum", (52.2297, 21.0122)) ].



(** The instances of the model at the sample parameters. *)
Definition find_closest := find_closest_metro_station
  series_sin series_cos series_atan2 stations.
Definition should_process := should_process_offer
  series_sin series_cos series_atan2 stations.
Definition distance := calculate_distance series_sin series_cos series_atan2.
Definition extract := extract_offer_data
  series_sin series_cos series_atan2 stations parse_decimal repr_opaque.
Definition process := process_offer
  series_sin series_cos series_atan2 stations parse_decimal repr_opaque.
Definition discover := fetch_offers_list repr_opaque (Py.str repr_opaque).

End Sample.

(** ** The per-offer script as a whole *)

Section Main.

Variable libm_sin libm_cos : float -> float.
Variable libm_atan2 : float -> float -> float.
Variable warsaw_metro_stations : station_table.
Variable parse_float : string -> option float.
Variable repr : pyval -> string.

(** [str.strip()]. *)
Variable strip : string -> string.

Local Open Scope string_scope.

(** [not value] for what [os.getenv] gives: the variable is unset or
    empty. *)
Definition missing (value : option string) : bool :=
  match value with
  | None => true
  | Some s => String.eqb s ""
  end.

(** [main()] of [parse_offers.py]: [argv] is [sys.argv], the two options
    are the values of SPREADSHEET_ID and GOOGLE_MAPS_API_KEY, [make_client]
    is the constructor of the Google Maps client, which may reject the key.
    The result is the exit status, the worksheet and the calls made. *)
Definition main (argv : list string)
    (spreadsheet_id google_maps_api_key : option string)
    (make_client : string -> result gmaps)
    (fetch_offer_details : string -> result pyval)
    (ws : worksheet) (log : list call) : Z * worksheet * list call :=
  match argv with
  | [_; arg] =>
      let slug := strip arg in
      if missing spreadsheet_id then (1%Z, ws, log)
      else
        match google_maps_api_key with
        | None => (1%Z, ws, log)
        | Some key =>
            if String.eqb key "" then (1%Z, ws, log)
            else
              match make_client key with
              | Raise _ => (1%Z, ws, log)
              | Ok gmaps_client =>
                  process_offer libm_sin libm_cos libm_atan2
                    warsaw_metro_stations parse_float repr
                    (fetch_offer_details slug) gmaps_client ws log
              end
        end
  | _ => (1%Z, ws, log)
  end.

End Main.

(** ** More sample data *)

Module Cases.

Import Sample.
Local Open Scope string_scope.
Local Open Scope float_scope.

(** A listing whose coordinates are JSON null. *)
Definition listing_unlocated : pyval :=
  PDict [ ("props", PDict [ ("pageProps", PDict [ ("ad",
    PDict [ ("id", PInt 65432100);
            ("location",
              PDict [ ("coordinates",
                PDict [ ("latitude", PNone); ("longitude", PNone) ]) ]) ]) ]) ]) ].

(** The characteristics of the sample advertisement. *)
Definition sample_characteristics : list pyval :=
  [ characteristic "price" "Cena" "3000" "3000 zl";
    characteristic "rent" "Czynsz" "500" "500 zl";
    characteristic "m" "Powierzchnia" "45" "45 m2";
    characteristic "rooms_num" "Liczba pokoi" "2" "2" ].

(** An advertisement with an address only: no street name, a district and
    a city. *)
Definition ad_without_street : pyval :=
  PDict [ ("location", PDict [ ("address",
    PDict [ ("street", named "");
            ("district", named "Mokotow");
            ("city", named "Warszawa") ]) ]) ].

(** A search result item that lacks its identifier. *)
Definition item_without_id (slug : string) : pyval :=
  PDict [ ("slug", PStr slug) ].

(** A worksheet with its header and one recorded offer, 111. *)
Definition sheet_with_offer : worksheet :=
  {| ws_rows :=
       [ header;
         [ PStr "GREEN"; PStr "Centrum"; PFloat 3000; PFloat 3500;
           PStr "https://www.otodom.pl/pl/oferta/a-ID1"; PStr "45";
           PStr "Marszalkowska, Srodmiescie, Warszawa"; PStr "7 mins";
           PStr "4 mins"; PFloat 500; PInt 111; PStr "a-ID1";
           PStr "N/A"; PStr "N/A"; PStr "N/A" ] ];
     ws_fills := [ (2%nat, GreenFill) ] |}.

(** A search page with the recorded offer between two new ones. *)
Definition page_mixed : pyval :=
  search_page [ item 222 "b-ID2"; item 111 "a-ID1"; item 333 "c-ID3" ].

(** A search page where one item lacks its identifier. *)
Definition page_broken : pyval :=
  search_page [ item 222 "b-ID2"; item_without_id "x-ID9" ].

(** The language model answering, and failing. *)
Definition lm_answers : language_model :=
  fun _ => Ok (PStr "Immediately", PStr "3500 PLN", PStr "Balcony").

Definition lm_fails : language_model := fun _ => Raise ServiceError.

(** The environment of a run of the script. *)
Definition strip_none (s : string) : string := s.

Definition client_for (key : string) : result gmaps := Ok client_ok.

Definition fetch_near (slug : string) : result pyval := Ok listing_near.

Definition fetch_fails (slug : string) : result pyval := Raise ServiceError.

Definition run_main := main
  series_sin series_cos series_atan2 stations parse_decimal repr_opaque
  strip_none.

End Cases.

(** ** The spreadsheet service may fail *)

(** The calls [save_to_sheets] makes to the spreadsheet service, in the
    order it makes them. *)
Inductive sheet_call : Type :=
| ServiceAccount
| OpenByKey
| FirstSheet
| AppendRow
| GetAllValues
| FormatCell.

(** What the service does in one run: for each call, the exception it
    raises, if any.  A call that raises changes nothing. *)
Definition sheet_faults : Type := sheet_call -> option exn.

Definition no_faults : sheet_faults := fun _ => None.

Module FallibleSink.

(** [save_to_sheets(data, spreadsheet_id, credentials_file)] with its
    calls: the outcome, and the worksheet as it is left. *)
Definition save_to_sheets_calls (faults : sheet_faults) (data : offer_data)
    (ws : worksheet) : result unit * worksheet :=
  match faults ServiceAccount with
  | Some e => (Raise e, ws)
  | None =>
  match faults OpenByKey with
  | Some e => (Raise e, ws)
  | None =>
  match faults FirstSheet with
  | Some e => (Raise e, ws)
  | None =>
  let meets_criteria := meets_criteria data in
  let row_data := row_data data in
  match faults AppendRow with
  | Some e => (Raise e, ws)
  | None =>
  let appended :=
    {| ws_rows := ws_rows ws ++ [row_data]; ws_fills := ws_fills ws |} in
  match faults GetAllValues with
  | Some e => (Raise e, appended)
  | None =>
  let last_row := List.length (ws_rows appended) in
  match faults FormatCell with
  | Some e => (Raise e, appended)
  | None =>
      (Ok tt,
       {| ws_rows := ws_rows appended;
          ws_fills := ws_fills ws ++
            [(last_row, if meets_criteria then GreenFill else RedFill)] |})
  end end end end end end.

End FallibleSink.
Import FallibleSink.

Section MainWithService.

Variable libm_sin libm_cos : float -> float.
Variable libm_atan2 : float -> float -> float.
Variable warsaw_metro_stations : station_table.
Variable parse_float : string -> option float.
Variable repr : pyval -> string.
Variable strip : string -> string.

Local Open Scope string_scope.

(** The [try] block of [main], the calls to the spreadsheet service
    included: any exception, of the fetch, of the extraction or of a sheet
    call, ends the run with status 1. *)
Definition process_offer_calls (faults : sheet_faults)
    (fetched : result pyval) (gmaps_client : gmaps)
    (ws : worksheet) (log : list call) : Z * worksheet * list call :=
  match fetched with
  | Raise _ => (1%Z, ws, log)
  | Ok data =>
      match extract_offer_data libm_sin libm_cos libm_atan2
              warsaw_metro_stations parse_float repr data gmaps_client log with
      | (Ok offer, log') =>
          match save_to_sheets_calls faults offer ws with
          | (Ok _, ws') => (0%Z, ws', log')
          | (Raise _, ws') => (1%Z, ws', log')
          end
      | (Raise _, log') => (1%Z, ws, log')
      end
  end.

(** [main()] of [parse_offers.py] with a spreadsheet service that may
    fail. *)
Definition main_calls (faults : sheet_faults) (argv : list string)
    (spreadsheet_id google_maps_api_key : option string)
    (make_client : string -> result gmaps)
    (fetch_offer_details : string -> result pyval)
    (ws : worksheet) (log : list call) : Z * worksheet * list call :=
  match argv with
  | [_; arg] =>
      let slug := strip arg in
      if missing spreadsheet_id then (1%Z, ws, log)
      else
        match google_maps_api_key with
        | None => (1%Z, ws, log)
        | Some key =>
            if String.eqb key "" then (1%Z, ws, log)
            else
              match make_client key with
              | Raise _ => (1%Z, ws, log)
              | Ok gmaps_client =>
                  process_offer_calls faults
                    (fetch_offer_details slug) gmaps_client ws log
              end
        end
  | _ => (1%Z, ws, log)
  end.

End MainWithService.

Module Faults.

(** The worksheet is read back in vain after the append. *)
Definition read_back_fails : sheet_faults :=
  fun c => match c with GetAllValues => Some ServiceError | _ => None end.

(** The worksheet cannot be opened. *)
Definition open_fails : sheet_faults :=
  fun c => match c with OpenByKey => Some ServiceError | _ => None end.

Definition run_main_calls := main_calls
  Sample.series_sin Sample.series_cos Sample.series_atan2 Sample.stations
  Sample.parse_decimal Sample.repr_opaque Cases.strip_none.

End Faults.

(** ** Facts about the order of binary64 numbers *)

Module FloatOrder.

Local Open Scope Z_scope.

Lemma SFcompare_rank (f g : spec_float) :
  sf_is_nan f = false -> sf_is_nan g = false ->
  SFcompare f g = Some (lex_compare (sf_rank f) (sf_rank g)).
Proof.
  destruct f as [s | s | | s m e], g as [s' | s' | | s' m' e'];
    simpl; try discriminate; intros _ _;
    try destruct s; try destruct s'; simpl; try reflexivity.
  rewrite Z.compare_opp, (Z.compare_antisym e' e).
  destruct (e' ?= e); reflexivity.
Qed.

Lemma SFcompare_nan (f g : spec_float) :
  SFcompare f g <> None -> sf_is_nan f = false /\ sf_is_nan g = false.
Proof.
  destruct f as [s | s | | s m e], g as [s' | s' | | s' m' e'];
    simpl; intros H; try (split; reflexivity); exfalso; apply H; reflexivity.
Qed.

Lemma lex_compare_Lt (a b : Z * Z * Z) :
  lex_compare a b = Lt <->
  (let '(a1, a2, a3) := a in
   let '(b1, b2, b3) := b in
   a1 < b1 \/ (a1 = b1 /\ (a2 < b2 \/ (a2 = b2 /\ a3 < b3)))).
Proof.
  destruct a as [[a1 a2] a3], b as [[b1 b2] b3]; simpl.
  destruct (Z.compare_spec a1 b1), (Z.compare_spec a2 b2),
    (Z.compare_spec a3 b3); split; intros Hc; try discriminate;
    try reflexivity; lia.
Qed.

Lemma lex_compare_Eq (a b : Z * Z * Z) :
  lex_compare a b = Eq <-> a = b.
Proof.
  destruct a as [[a1 a2] a3], b as [[b1 b2] b3]; simpl.
  destruct (Z.compare_spec a1 b1), (Z.compare_spec a2 b2),
    (Z.compare_spec a3 b3); split; intros Hc; try discriminate;
    try reflexivity; try (inversion Hc; lia); subst; reflexivity.
Qed.

Lemma lex_compare_Gt (a b : Z * Z * Z) :
  lex_compare a b = Gt <-> lex_compare b a = Lt.
Proof.
  destruct a as [[a1 a2] a3], b as [[b1 b2] b3]; simpl.
  rewrite (Z.compare_antisym a1 b1), (Z.compare_antisym a2 b2),
    (Z.compare_antisym a3 b3).
  destruct (a1 ?= b1), (a2 ?= b2), (a3 ?= b3); simpl; split; intros Hc;
    try discriminate; reflexivity.
Qed.

Local Open Scope float_scope.

Lemma ltb_comparable (a b : float) :
  (a <? b) = true ->
  sf_is_nan (Prim2SF a) = false /\ sf_is_nan (Prim2SF b) = false.
Proof.
  rewrite ltb_spec. unfold SFltb. intros Hc.
  apply SFcompare_nan. destruct (SFcompare (Prim2SF a) (Prim2SF b));
    [discriminate | discriminate Hc].
Qed.

Lemma leb_comparable (a b : float) :
  (a <=? b) = true ->
  sf_is_nan (Prim2SF a) = false /\ sf_is_nan (Prim2SF b) = false.
Proof.
  rewrite leb_spec. unfold SFleb. intros Hc.
  apply SFcompare_nan. destruct (SFcompare (Prim2SF a) (Prim2SF b));
    [discriminate | discriminate Hc].
Qed.

Lemma ltb_rank (a b : float) :
  sf_is_nan (Prim2SF a) = false -> sf_is_nan (Prim2SF b) = false ->
  (a <? b) = true <->
  lex_compare (sf_rank (Prim2SF a)) (sf_rank (Prim2SF b)) = Lt.
Proof.
  intros Ha Hb. rewrite ltb_spec. unfold SFltb.
  rewrite (SFcompare_rank _ _ Ha Hb).
  destruct (lex_compare _ _); split; intros Hc; try discriminate; reflexivity.
Qed.

Lemma leb_rank (a b : float) :
  sf_is_nan (Prim2SF a) = false -> sf_is_nan (Prim2SF b) = false ->
  (a <=? b) = true <->
  lex_compare (sf_rank (Prim2SF a)) (sf_rank (Prim2SF b)) <> Gt.
Proof.
  intros Ha Hb. rewrite leb_spec. unfold SFleb.
  rewrite (SFcompare_rank _ _ Ha Hb).
  destruct (lex_compare _ _); split; intros Hc; try discriminate;
    try reflexivity; exfalso; apply Hc; reflexivity.
Qed.

Lemma eqb_rank (a b : float) :
  (a =? b) = true ->
  sf_is_nan (Prim2SF a) = false /\ sf_is_nan (Prim2SF b) = false /\
  lex_compare (sf_rank (Prim2SF a)) (sf_rank (Prim2SF b)) = Eq.
Proof.
  rewrite FloatAxioms.eqb_spec. unfold SFeqb. intros Hc.
  assert (Hn : SFcompare (Prim2SF a) (Prim2SF b) <> None).
  { destruct (SFcompare _ _); [discriminate | discriminate Hc]. }
  destruct (SFcompare_nan _ _ Hn) as [Ha Hb].
  rewrite (SFcompare_rank _ _ Ha Hb) in Hc.
  repeat split; trivial.
  destruct (lex_compare _ _); try discriminate; reflexivity.
Qed.

Ltac lex_unfold :=
  repeat match goal with
  | H : lex_compare _ _ = Lt |- _ => apply lex_compare_Lt in H
  | H : lex_compare _ _ = Eq |- _ => apply lex_compare_Eq in H
  | H : lex_compare _ _ <> Gt |- _ => rewrite lex_compare_Gt in H
  | |- lex_compare _ _ = Lt => apply lex_compare_Lt
  | |- lex_compare _ _ <> Gt => rewrite lex_compare_Gt
  end.

Lemma lex_lt_trans (a b c : Z * Z * Z) :
  lex_compare a b = Lt -> lex_compare b c = Lt -> lex_compare a c = Lt.
Proof.
  intros H1 H2. lex_unfold.
  destruct a as [[a1 a2] a3], b as [[b1 b2] b3], c as [[c1 c2] c3].
  lia.
Qed.

Lemma lex_lt_le_trans (a b c : Z * Z * Z) :
  lex_compare a b = Lt -> lex_compare b c <> Gt -> lex_compare a c = Lt.
Proof.
  intros H1 H2.
  destruct (lex_compare b c) eqn:E.
  - apply lex_compare_Eq in E. subst. assumption.
  - eapply lex_lt_trans; eassumption.
  - exfalso. apply H2. reflexivity.
Qed.

Lemma lex_not_lt (a b : Z * Z * Z) :
  lex_compare a b <> Lt -> lex_compare b a <> Gt.
Proof.
  intros H1 H2. apply H1. apply lex_compare_Gt in H2. assumption.
Qed.

Theorem ltb_trans (a b c : float) :
  (a <? b) = true -> (b <? c) = true -> (a <? c) = true.
Proof.
  intros H1 H2.
  destruct (ltb_comparable _ _ H1) as [Ha Hb].
  destruct (ltb_comparable _ _ H2) as [_ Hc].
  apply (ltb_rank _ _ Ha Hb) in H1. apply (ltb_rank _ _ Hb Hc) in H2.
  apply (ltb_rank _ _ Ha Hc). eapply lex_lt_trans; eassumption.
Qed.

Theorem ltb_leb_trans (a b c : float) :
  (a <? b) = true -> (b <=? c) = true -> (a <? c) = true.
Proof.
  intros H1 H2.
  destruct (ltb_comparable _ _ H1) as [Ha Hb].
  destruct (leb_comparable _ _ H2) as [_ Hc].
  apply (ltb_rank _ _ Ha Hb) in H1. apply (leb_rank _ _ Hb Hc) in H2.
  apply (ltb_rank _ _ Ha Hc). eapply lex_lt_le_trans; eassumption.
Qed.

Theorem ltb_leb_weaken (a b : float) :
  (a <? b) = true -> (a <=? b) = true.
Proof.
  intros H1. destruct (ltb_comparable _ _ H1) as [Ha Hb].
  apply (ltb_rank _ _ Ha Hb) in H1. apply (leb_rank _ _ Ha Hb).
  rewrite H1. discriminate.
Qed.

(** Two numbers that are not NaN are always comparable: when [a < b] fails,
    [b <= a] holds. *)
Theorem not_ltb_leb (a b : float) :
  sf_is_nan (Prim2SF a) = false -> sf_is_nan (Prim2SF b) = false ->
  (a <? b) = false -> (b <=? a) = true.
Proof.
  intros Ha Hb H1.
  apply (leb_rank _ _ Hb Ha). apply lex_not_lt.
  intros Hc. apply (ltb_rank _ _ Ha Hb) in Hc. congruence.
Qed.

Theorem eqb_leb (a b : float) : (a =? b) = true -> (a <=? b) = true.
Proof.
  intros H1. destruct (eqb_rank _ _ H1) as (Ha & Hb & Hc).
  apply (leb_rank _ _ Ha Hb). rewrite Hc. discriminate.
Qed.

Theorem leb_true_iff (a b : float) :
  (a <=? b) = true <-> (a <? b) = true \/ (a =? b) = true.
Proof.
  rewrite leb_spec, ltb_spec, FloatAxioms.eqb_spec. unfold SFleb, SFltb, SFeqb.
  destruct (SFcompare (Prim2SF a) (Prim2SF b)) as [[ | | ] | ];
    split; intros Hc; try discriminate; auto;
    destruct Hc; discriminate.
Qed.

Lemma below_inf_not_nan (d : float) :
  below_inf d = true -> sf_is_nan (Prim2SF d) = false.
Proof.
  intros Hd. apply (ltb_comparable _ _ Hd).
Qed.

End FloatOrder.

Import FloatOrder.

Lemma bind_Ok_inv {A B : Type} (m : result A) (k : A -> result B) (b : B) :
  ResultMonad.bind m k = Ok b -> exists a, m = Ok a /\ k a = Ok b.
Proof.
  destruct m as [a|e]; simpl; intros H; [exists a; auto | discriminate].
Qed.

(** ** Facts about the nearest-station query *)

Section GeoIndexFacts.

Variable libm_sin libm_cos : float -> float.
Variable libm_atan2 : float -> float -> float.
Variable stations : station_table.

Local Open Scope result_scope.
Local Open Scope float_scope.

Local Abbreviation dist := (station_distance libm_sin libm_cos libm_atan2).
Local Abbreviation scan := (scan_stations libm_sin libm_cos libm_atan2).
Local Abbreviation measurable := (measurable libm_sin libm_cos libm_atan2).

Lemma measurable_inv (lat lon : pyval) (n : string) (c : coords) :
  measurable lat lon (n, c) = true ->
  exists d, dist lat lon c = Ok d /\ below_inf d = true.
Proof.
  unfold measurable; simpl. destruct (dist lat lon c) as [d|e]; intros H;
    [exists d; auto | discriminate].
Qed.

Lemma measurable_In (lat lon : pyval) (items : station_table) n c :
  forallb (measurable lat lon) items = true -> In (n, c) items ->
  exists d, dist lat lon c = Ok d /\ below_inf d = true.
Proof.
  intros Hall Hin. rewrite forallb_forall in Hall.
  apply (measurable_inv lat lon n c). apply Hall. assumption.
Qed.

(** The loop invariant, as a postcondition for a run from any state: either
    no remaining item beats [min_distance] and the state's station is
    returned, or the first item that attains the least distance is. *)
Lemma scan_stations_spec (lat lon : pyval) (items : station_table) :
  forallb (measurable lat lon) items = true ->
  forall (closest : option string) (min_distance : float),
    (scan lat lon items closest min_distance = Ok closest /\
     forall n c d, In (n, c) items -> dist lat lon c = Ok d ->
                   (d <? min_distance) = false)
    \/
    (exists pre name c post d,
        items = pre ++ (name, c) :: post /\
        scan lat lon items closest min_distance = Ok (Some name) /\
        dist lat lon c = Ok d /\
        (d <? min_distance) = true /\
        (forall n' c' d', In (n', c') pre -> dist lat lon c' = Ok d' ->
                          (d <? d') = true) /\
        (forall n' c' d', In (n', c') post -> dist lat lon c' = Ok d' ->
                          (d <=? d') = true)).
Proof.
  induction items as [|[n0 c0] rest IH]; intros Hall closest min_distance.
  - left. split; [reflexivity | intros n c d []].
  - simpl in Hall. apply andb_true_iff in Hall. destruct Hall as [H0 Hrest].
    destruct (measurable_inv _ _ _ _ H0) as (d0 & Hd0 & Hfin0).
    pose proof (below_inf_not_nan _ Hfin0) as Hnan0.
    simpl. rewrite Hd0. simpl.
    destruct (d0 <? min_distance) eqn:Hlt.
    + destruct (IH Hrest (Some n0) d0) as
        [[Hrun Hnone] | (pre & name & c & post & d & Hsplit & Hrun & Hd & Hbeat & Hpre & Hpost)].
      * right. exists [], n0, c0, rest, d0. repeat split; trivial.
        -- intros n' c' d' [].
        -- intros n' c' d' Hin Hd'.
           destruct (measurable_In _ _ _ _ _ Hrest Hin) as (d'' & Hd'' & Hfin).
           rewrite Hd' in Hd''. injection Hd'' as <-.
           apply not_ltb_leb; auto using below_inf_not_nan.
           exact (Hnone _ _ _ Hin Hd').
      * right. exists ((n0, c0) :: pre), name, c, post, d.
        repeat split; trivial.
        -- rewrite Hsplit. reflexivity.
        -- eapply ltb_trans; eassumption.
        -- intros n' c' d' [Heq | Hin] Hd'.
           ++ injection Heq as <- <-. rewrite Hd0 in Hd'.
              injection Hd' as <-. assumption.
           ++ eapply Hpre; eassumption.
    + destruct (IH Hrest closest min_distance) as
        [[Hrun Hnone] | (pre & name & c & post & d & Hsplit & Hrun & Hd & Hbeat & Hpre & Hpost)].
      * left. split; trivial.
        intros n c d [Heq | Hin] Hd.
        -- injection Heq as <- <-. rewrite Hd0 in Hd.
           injection Hd as <-. assumption.
        -- eapply Hnone; eassumption.
      * right. exists ((n0, c0) :: pre), name, c, post, d.
        repeat split; trivial.
        -- rewrite Hsplit. reflexivity.
        -- intros n' c' d' [Heq | Hin] Hd'.
           ++ injection Heq as <- <-. rewrite Hd0 in Hd'.
              injection Hd' as <-.
              eapply ltb_leb_trans; [eassumption|].
              apply not_ltb_leb; trivial.
              apply (ltb_comparable _ _ Hbeat).
           ++ eapply Hpre; eassumption.
Qed.







End GeoIndexFacts.



Section ThresholdFacts.

Variable libm_sin libm_cos : float -> float.
Variable libm_atan2 : float -> float -> float.
Variable stations : station_table.

Local Open Scope float_scope.

Local Abbreviation dist := (station_distance libm_sin libm_cos libm_atan2).
Local Abbreviation find :=
  (find_closest_metro_station libm_sin libm_cos libm_atan2 stations).
Local Abbreviation check :=
  (should_process_offer libm_sin libm_cos libm_atan2 stations).

(** What a successful proximity check went through: the nearest-station
    query returned a station, the table holds its coordinates, and the
    flag is the comparison of the distance to them with [1.0]. *)
Lemma should_process_offer_inv (lat lon : pyval) (flag : bool)
    (closest : option string) (c : coords) :
  check lat lon = Ok (flag, closest, c) ->
  exists name d,
    closest = Some name /\
    find lat lon = Ok (Some name) /\
    dict_get stations name = Ok c /\
    dist lat lon c = Ok d /\
    flag = (d <=? 1).
Proof.
  unfold should_process_offer. intros H.
  apply bind_Ok_inv in H. destruct H as (st & Hfind & H).
  apply bind_Ok_inv in H. destruct H as (c' & Hlook & H).
  apply bind_Ok_inv in H. destruct H as (d & Hd & H).
  injection H as <- <- <-.
  destruct st as [name|]; [|discriminate Hlook].
  exists name, d. repeat split; assumption.
Qed.

(** C2: when [should_process_offer] returns, its flag is true if and only
    if the distance it computed to the closest station satisfies
    [distance <= 1.0]; a distance equal to [1.0] gives true. *)
Theorem proximity_flag_iff (lat lon : pyval) (flag : bool)
    (closest : option string) (c : coords) :
  check lat lon = Ok (flag, closest, c) ->
  exists d,
    find lat lon = Ok closest /\
    station_lookup stations closest = Ok c /\
    dist lat lon c = Ok d /\
    (flag = true <-> (d <=? 1) = true) /\
    ((d =? 1) = true -> flag = true).
Proof.
  intros H.
  destruct (should_process_offer_inv _ _ _ _ _ H)
    as (name & d & -> & Hfind & Hlook & Hd & ->).
  exists d. repeat split; trivial.
  apply eqb_leb.
Qed.

(** C9 (as amended): over an empty index [find_closest_metro_station]
    raises nothing and returns [None]; the failure comes from
    [should_process_offer], whose lookup of [None] in the table raises
    [KeyError], for every query point. *)
Theorem empty_index_fails_in_lookup (lat lon : pyval) :
  find_closest_metro_station libm_sin libm_cos libm_atan2 [] lat lon
    = Ok None /\
  should_process_offer libm_sin libm_cos libm_atan2 [] lat lon
    = Raise KeyError.
Proof.
  split; reflexivity.
Qed.

End ThresholdFacts.

(** The proximity check on the sample table, for a point half a kilometre
    from "Centrum". *)
Lemma proximity_flag_iff_witness :
  Sample.should_process (PFloat 52.2342) (PFloat 21.0122)
    = Ok (true, Some "Centrum"%string, (52.2297, 21.0122)%float) /\
  exists d,
    Sample.find_closest (PFloat 52.2342) (PFloat 21.0122)
      = Ok (Some "Centrum"%string) /\
    station_lookup Sample.stations (Some "Centrum"%string)
      = Ok (52.2297, 21.0122)%float /\
    station_distance Sample.series_sin Sample.series_cos Sample.series_atan2
      (PFloat 52.2342) (PFloat 21.0122) (52.2297, 21.0122)%float = Ok d /\
    (true = true <-> (d <=? 1)%float = true) /\
    ((d =? 1)%float = true -> true = true).
Proof.
  split; [vm_compute; reflexivity|].
  apply (proximity_flag_iff Sample.series_sin Sample.series_cos
           Sample.series_atan2 Sample.stations
           (PFloat 52.2342) (PFloat 21.0122)).
  vm_compute; reflexivity.
Defined.

(** C9 (as stated) fails: over an empty index the nearest-station query
    returns [None], a result that is not an error. *)
Lemma empty_index_returns_None :
  find_closest_metro_station Sample.series_sin Sample.series_cos
    Sample.series_atan2 [] (PFloat 52.2297) (PFloat 21.0122) = Ok None /\
  ~ (exists e,
       find_closest_metro_station Sample.series_sin Sample.series_cos
         Sample.series_atan2 [] (PFloat 52.2297) (PFloat 21.0122) = Raise e).
Proof.
  split; [reflexivity|]. intros [e H]. discriminate H.
Qed.

(** ** Facts about the travel-time lookup *)

Section TravelTimeFacts.

Variable gmaps_client : gmaps.
Variable origin_lat origin_lon dest_lat dest_lon : pyval.

Local Abbreviation origin := (origin_lat, origin_lon).
Local Abbreviation destination := (dest_lat, dest_lon).
Local Abbreviation travel :=
  (get_travel_times gmaps_client origin_lat origin_lon dest_lat dest_lon).

(** The run of [get_travel_times], case by case on what the two calls
    answer. *)
Lemma get_travel_times_run (log : list call) :
  travel log =
  match gmaps_client Walking origin destination with
  | Raise _ => (Ok (NA, NA), log ++ [DistanceMatrix Walking origin destination])
  | Ok walking_result =>
      let log' := (log ++ [DistanceMatrix Walking origin destination])
                    ++ [DistanceMatrix Transit origin destination] in
      match gmaps_client Transit origin destination with
      | Raise _ => (Ok (NA, NA), log')
      | Ok transit_result =>
          match duration_text walking_result, duration_text transit_result with
          | Ok walking_time, Ok transit_time =>
              (Ok (walking_time, transit_time), log')
          | _, _ => (Ok (NA, NA), log')
          end
      end
  end.
Proof.
  unfold get_travel_times, IOMonad.try_except, IOMonad.bind, distance_matrix,
    IOMonad.invoke, IOMonad.lift, IOMonad.ret.
  destruct (gmaps_client Walking origin destination) as [rw|e]; [|reflexivity].
  destruct (gmaps_client Transit origin destination) as [rt|e]; [|reflexivity].
  simpl.
  destruct (duration_text rw) as [w|e]; [|reflexivity].
  destruct (duration_text rt) as [t|e]; reflexivity.
Qed.

(** The lookup never raises, and the calls it makes are the walking call
    and, when that one answered, the transit call. *)
Lemma get_travel_times_total (log : list call) :
  exists times calls,
    travel log =
      (Ok times, log ++ DistanceMatrix Walking origin destination :: calls) /\
    (forall res, gmaps_client Walking origin destination = Ok res ->
                 calls = [DistanceMatrix Transit origin destination]) /\
    (forall e, gmaps_client Walking origin destination = Raise e ->
               calls = []).
Proof.
  rewrite get_travel_times_run.
  destruct (gmaps_client Walking origin destination) as [rw|e].
  - assert (Hcalls : forall res : pyval, Ok rw = Ok res ->
              [DistanceMatrix Transit origin destination]
              = [DistanceMatrix Transit origin destination])
      by reflexivity.
    cbv zeta. rewrite <- app_assoc. simpl.
    destruct (gmaps_client Transit origin destination) as [rt|e];
      [destruct (duration_text rw) as [w|e];
        [destruct (duration_text rt) as [t|e]|]|];
      eexists; eexists; (split; [reflexivity | split; [exact Hcalls|]]);
      intros e' He'; discriminate He'.
  - exists (NA, NA), []. split; [reflexivity|]. split.
    + intros res Hres. discriminate Hres.
    + reflexivity.
Qed.

(** A status other than "OK" gives "N/A"; the status "OK" gives the text of
    the duration. *)
Lemma duration_text_status (res element status : pyval) :
  first_element res = Ok element ->
  Py.getitem element "status" = Ok status ->
  duration_text res =
    if Py.eq_str status "OK"
    then ResultMonad.bind (Py.getitem element "duration")
           (fun duration => Py.getitem duration "text")
    else Ok NA.
Proof.
  intros Hel Hst. unfold duration_text. rewrite Hel. simpl. rewrite Hst.
  simpl. destruct (Py.eq_str status "OK"); reflexivity.
Qed.

(** C7 (as amended): [get_travel_times] never raises, so a failing lookup
    cannot abort the extraction.  When both calls answer with a well-formed
    document, each field is decided by its own status: the duration text
    for "OK", "N/A" otherwise; so a transit answer with a non-success
    status next to a successful walking answer gives the walking duration
    and "N/A".  When a call raises or an answer is malformed, both fields
    are "N/A", the one whose lookup succeeded included. *)
Theorem travel_times_degrade (log : list call) :
  (exists times log', travel log = (Ok times, log')) /\
  (forall walking_result transit_result walking_time transit_time,
      gmaps_client Walking origin destination = Ok walking_result ->
      gmaps_client Transit origin destination = Ok transit_result ->
      duration_text walking_result = Ok walking_time ->
      duration_text transit_result = Ok transit_time ->
      fst (travel log) = Ok (walking_time, transit_time)) /\
  (forall walking_result transit_result element status walking_time,
      gmaps_client Walking origin destination = Ok walking_result ->
      gmaps_client Transit origin destination = Ok transit_result ->
      duration_text walking_result = Ok walking_time ->
      first_element transit_result = Ok element ->
      Py.getitem element "status" = Ok status ->
      Py.eq_str status "OK" = false ->
      fst (travel log) = Ok (walking_time, NA)) /\
  (((exists e, gmaps_client Walking origin destination = Raise e) \/
    (exists e, gmaps_client Transit origin destination = Raise e) \/
    (exists res e, gmaps_client Walking origin destination = Ok res /\
                   duration_text res = Raise e) \/
    (exists res e, gmaps_client Transit origin destination = Ok res /\
                   duration_text res = Raise e)) ->
   fst (travel log) = Ok (NA, NA)).
Proof.
  repeat split.
  - destruct (get_travel_times_total log) as (times & calls & Hrun & _).
    exists times. eexists. exact Hrun.
  - intros rw rt w t Hw Ht Hdw Hdt.
    rewrite get_travel_times_run, Hw, Ht. cbv zeta. rewrite Hdw, Hdt.
    reflexivity.
  - intros rw rt el st w Hw Ht Hdw Hel Hst Hno.
    rewrite get_travel_times_run, Hw, Ht. cbv zeta.
    rewrite Hdw, (duration_text_status _ _ _ Hel Hst), Hno. reflexivity.
  - intros H. rewrite get_travel_times_run.
    destruct (gmaps_client Walking origin destination) as [rw|ew];
      [|reflexivity].
    cbv zeta.
    destruct (gmaps_client Transit origin destination) as [rt|et];
      [|reflexivity].
    destruct H as [[e H] | [[e H] | [(res & e & H & Hd) | (res & e & H & Hd)]]];
      try discriminate H; injection H as <-; rewrite Hd.
    + reflexivity.
    + destruct (duration_text rw); reflexivity.
Qed.

End TravelTimeFacts.

(** C7 (as stated) fails: the walking lookup succeeds with "7 mins" and the
    transit call raises, yet the walking time comes back as "N/A" as well,
    not only the field whose lookup failed. *)
Lemma transit_failure_drops_walking_time :
  Sample.client_transit_raises Walking
    (PFloat 52.2297, PFloat 21.0122) (PFloat 52.2297, PFloat 21.0122)
    = Ok (Sample.element_ok "7 mins") /\
  duration_text (Sample.element_ok "7 mins") = Ok (PStr "7 mins") /\
  fst (get_travel_times Sample.client_transit_raises
         (PFloat 52.2297) (PFloat 21.0122) (PFloat 52.2297) (PFloat 21.0122) [])
    = Ok (PStr "N/A", PStr "N/A").
Proof.
  repeat split; reflexivity.
Qed.

(** The sample client whose transit answer has the status "ZERO_RESULTS":
    the walking time is the duration returned. *)
Lemma travel_times_degrade_witness :
  let travel :=
    get_travel_times Sample.client_no_transit
      (PFloat 52.2297) (PFloat 21.0122) (PFloat 52.2342) (PFloat 21.0122) in
  Sample.client_no_transit Walking
    (PFloat 52.2297, PFloat 21.0122) (PFloat 52.2342, PFloat 21.0122)
    = Ok (Sample.element_ok "7 mins") /\
  Sample.client_no_transit Transit
    (PFloat 52.2297, PFloat 21.0122) (PFloat 52.2342, PFloat 21.0122)
    = Ok (Sample.element_failed "ZERO_RESULTS") /\
  duration_text (Sample.element_ok "7 mins") = Ok (PStr "7 mins") /\
  first_element (Sample.element_failed "ZERO_RESULTS")
    = Ok (PDict [("status"%string, PStr "ZERO_RESULTS")]) /\
  Py.getitem (PDict [("status"%string, PStr "ZERO_RESULTS")]) "status"
    = Ok (PStr "ZERO_RESULTS") /\
  Py.eq_str (PStr "ZERO_RESULTS") "OK" = false /\
  fst (travel []) = Ok (PStr "7 mins", NA).
Proof.
  intros travel.
  repeat (split; [reflexivity|]).
  destruct (travel_times_degrade Sample.client_no_transit
              (PFloat 52.2297) (PFloat 21.0122) (PFloat 52.2342)
              (PFloat 21.0122) []) as (_ & _ & Hsoft & _).
  apply (Hsoft (Sample.element_ok "7 mins")
           (Sample.element_failed "ZERO_RESULTS")
           (PDict [("status"%string, PStr "ZERO_RESULTS")])
           (PStr "ZERO_RESULTS") (PStr "7 mins")); reflexivity.
Defined.

(** ** Facts about the extraction *)

Section ExtractionFacts.

Variable libm_sin libm_cos : float -> float.
Variable libm_atan2 : float -> float -> float.
Variable stations : station_table.
Variable parse_float : string -> option float.
Variable repr : pyval -> string.

Local Abbreviation check :=
  (should_process_offer libm_sin libm_cos libm_atan2 stations).
Local Abbreviation extract :=
  (extract_offer_data libm_sin libm_cos libm_atan2 stations parse_float repr).

(** The run of [extract_offer_data] once the coordinates and the proximity
    check are known. *)
Lemma extract_offer_data_run (data : pyval) (gmaps_client : gmaps)
    (log : list call) (ad lat lon : pyval) (flag : bool)
    (closest : option string) (c : coords) :
  offer_coordinates data = Ok (ad, lat, lon) ->
  check lat lon = Ok (flag, closest, c) ->
  extract data gmaps_client log =
    match enrich repr ad lat lon gmaps_client flag closest c log with
    | (Ok enriched, log') => (assemble parse_float ad closest enriched, log')
    | (Raise e, log') => (Raise e, log')
    end.
Proof.
  intros Hloc Hcheck.
  unfold extract_offer_data, IOMonad.bind, IOMonad.lift.
  rewrite Hloc, Hcheck. reflexivity.
Qed.

(** A successful extraction went through every stage. *)
Lemma extract_offer_data_inv (data : pyval) (gmaps_client : gmaps)
    (log log' : list call) (offer : offer_data) :
  extract data gmaps_client log = (Ok offer, log') ->
  exists ad lat lon flag closest c enriched,
    offer_coordinates data = Ok (ad, lat, lon) /\
    check lat lon = Ok (flag, closest, c) /\
    enrich repr ad lat lon gmaps_client flag closest c log
      = (Ok enriched, log') /\
    assemble parse_float ad closest enriched = Ok offer.
Proof.
  unfold extract_offer_data, IOMonad.bind, IOMonad.lift.
  destruct (offer_coordinates data) as [[[ad lat] lon]|e];
    [|intros H; discriminate H].
  destruct (should_process_offer _ _ _ _ lat lon)
    as [[[flag closest] c]|e] eqn:Hcheck; [|intros H; discriminate H].
  destruct (enrich repr ad lat lon gmaps_client flag closest c log)
    as [[enriched|e] log1] eqn:Henrich; [|intros H; discriminate H].
  intros H. injection H as Hasm <-.
  exists ad, lat, lon, flag, closest, c, enriched. repeat split; trivial.
Qed.

(** What [assemble] copies into the dictionary and what it computes. *)
Lemma assemble_inv (ad : pyval) (closest : option string)
    (enriched : enrichment) (offer : offer_data) :
  assemble parse_float ad closest enriched = Ok offer ->
  characteristic_value parse_float ad 0 = Ok (base_cost offer) /\
  characteristic_value parse_float ad 1 = Ok (rent offer) /\
  total_cost offer = (base_cost offer + rent offer)%float /\
  closest_metro offer = closest /\
  walking_time offer = e_walking_time enriched /\
  transit_time offer = e_transit_time enriched /\
  available_from offer = e_available_from enriched /\
  total_monthly_cost offer = e_total_monthly_cost enriched /\
  key_advantages offer = e_key_advantages enriched.
Proof.
  unfold assemble. intros H.
  repeat (apply bind_Ok_inv in H; destruct H as (? & ? & H)).
  injection H as <-. simpl. repeat split; trivial.
Qed.

(** Outside the threshold [enrich] makes no call and leaves the five
    fields at "N/A". *)
Lemma enrich_far (ad lat lon : pyval) (gmaps_client : gmaps)
    (closest : option string) (c : coords) (log : list call) :
  snd (enrich repr ad lat lon gmaps_client false closest c log) = log /\
  forall enriched,
    fst (enrich repr ad lat lon gmaps_client false closest c log)
      = Ok enriched ->
    e_walking_time enriched = NA /\ e_transit_time enriched = NA /\
    e_available_from enriched = NA /\ e_total_monthly_cost enriched = NA /\
    e_key_advantages enriched = NA.
Proof.
  unfold enrich, IOMonad.bind, IOMonad.lift, IOMonad.ret.
  destruct (Py.getitem ad "description") as [original|e]; simpl.
  - split; [reflexivity|]. intros enriched H. injection H as <-.
    simpl. repeat split.
  - split; [reflexivity|]. intros enriched H. discriminate H.
Qed.

(** Within the threshold [enrich] runs the travel-time lookup and nothing
    else that reaches a service; the three answers of the language model
    are the literal "N/A". *)
Lemma enrich_near (ad lat lon : pyval) (gmaps_client : gmaps)
    (closest : option string) (c : coords) (log : list call) :
  let lookup :=
    get_travel_times gmaps_client (PFloat (fst c)) (PFloat (snd c)) lat lon log
  in
  snd (enrich repr ad lat lon gmaps_client true closest c log) = snd lookup /\
  forall enriched,
    fst (enrich repr ad lat lon gmaps_client true closest c log)
      = Ok enriched ->
    fst lookup = Ok (e_walking_time enriched, e_transit_time enriched) /\
    e_available_from enriched = NA /\ e_total_monthly_cost enriched = NA /\
    e_key_advantages enriched = NA.
Proof.
  intros lookup. unfold enrich, IOMonad.bind, IOMonad.lift, IOMonad.ret.
  fold lookup.
  destruct (get_travel_times_total gmaps_client (PFloat (fst c))
              (PFloat (snd c)) lat lon log) as ([w t] & calls & Hrun & _).
  fold lookup in Hrun. rewrite Hrun. simpl.
  destruct (comprehensive_description repr ad closest w t) as [text|e]; simpl.
  - split; [reflexivity|]. intros enriched H. injection H as <-.
    simpl. repeat split.
  - split; [reflexivity|]. intros enriched H. discriminate H.
Qed.

(** C4: for an offer whose proximity check gives false, the extraction
    makes no call to a service, whatever its outcome, and the record it
    returns has the five enrichment fields equal to "N/A". *)
Theorem far_offer_not_enriched (data : pyval) (gmaps_client : gmaps)
    (log : list call) (ad lat lon : pyval) (closest : option string)
    (c : coords) :
  offer_coordinates data = Ok (ad, lat, lon) ->
  check lat lon = Ok (false, closest, c) ->
  snd (extract data gmaps_client log) = log /\
  forall offer,
    fst (extract data gmaps_client log) = Ok offer ->
    walking_time offer = NA /\ transit_time offer = NA /\
    available_from offer = NA /\ total_monthly_cost offer = NA /\
    key_advantages offer = NA.
Proof.
  intros Hloc Hcheck.
  rewrite (extract_offer_data_run data gmaps_client log _ _ _ _ _ _ Hloc Hcheck).
  destruct (enrich_far ad lat lon gmaps_client closest c log) as [Hlog Hfields].
  destruct (enrich repr ad lat lon gmaps_client false closest c log)
    as [[enriched|e] log1]; simpl in *; subst log1.
  - split; [reflexivity|]. intros offer Hasm.
    destruct (Hfields enriched eq_refl) as (Hw & Ht & Ha & Hm & Hk).
    destruct (assemble_inv _ _ _ _ Hasm)
      as (_ & _ & _ & _ & Hw' & Ht' & Ha' & Hm' & Hk').
    rewrite Hw', Ht', Ha', Hm', Hk'. repeat split; assumption.
  - split; [reflexivity|]. intros offer H. discriminate H.
Qed.

(** C5: in every record [extract_offer_data] returns, [total_cost] is the
    floating-point sum of [base_cost] and [rent], which are the values of
    the first two characteristics of the advertisement. *)
Theorem total_cost_is_sum (data : pyval) (gmaps_client : gmaps)
    (log log' : list call) (offer : offer_data) :
  extract data gmaps_client log = (Ok offer, log') ->
  total_cost offer = (base_cost offer + rent offer)%float /\
  exists ad lat lon,
    offer_coordinates data = Ok (ad, lat, lon) /\
    characteristic_value parse_float ad 0 = Ok (base_cost offer) /\
    characteristic_value parse_float ad 1 = Ok (rent offer).
Proof.
  intros H.
  destruct (extract_offer_data_inv _ _ _ _ _ H)
    as (ad & lat & lon & flag & closest & c & enriched & Hloc & _ & _ & Hasm).
  destruct (assemble_inv _ _ _ _ Hasm) as (Hb & Hr & Ht & _).
  split; [assumption|]. exists ad, lat, lon. repeat split; assumption.
Qed.

(** C6 (as amended): for an offer whose proximity check gives true, the
    extraction calls the Distance Matrix service for the walking time and,
    when that call answers, for the transit time, and calls nothing else:
    the language model is not invoked.  The record returned has the two
    travel times of [get_travel_times] and "N/A" in the three fields the
    language model would fill. *)
Theorem near_offer_travel_times_only (data : pyval) (gmaps_client : gmaps)
    (log : list call) (ad lat lon : pyval) (closest : option string)
    (c : coords) :
  offer_coordinates data = Ok (ad, lat, lon) ->
  check lat lon = Ok (true, closest, c) ->
  let origin := (PFloat (fst c), PFloat (snd c)) in
  let destination := (lat, lon) in
  exists calls,
    snd (extract data gmaps_client log)
      = log ++ DistanceMatrix Walking origin destination :: calls /\
    (forall res, gmaps_client Walking origin destination = Ok res ->
                 calls = [DistanceMatrix Transit origin destination]) /\
    (forall e, gmaps_client Walking origin destination = Raise e ->
               calls = []) /\
    (forall description,
        ~ In (LanguageModel description)
             (DistanceMatrix Walking origin destination :: calls)) /\
    (forall offer,
        fst (extract data gmaps_client log) = Ok offer ->
        fst (get_travel_times gmaps_client (PFloat (fst c)) (PFloat (snd c))
               lat lon log)
          = Ok (walking_time offer, transit_time offer) /\
        available_from offer = NA /\ total_monthly_cost offer = NA /\
        key_advantages offer = NA).
Proof.
  intros Hloc Hcheck origin destination.
  rewrite (extract_offer_data_run data gmaps_client log _ _ _ _ _ _ Hloc Hcheck).
  destruct (enrich_near ad lat lon gmaps_client closest c log)
    as [Hlog Hfields].
  destruct (get_travel_times_total gmaps_client (PFloat (fst c))
              (PFloat (snd c)) lat lon log)
    as (times & calls & Hrun & Hok & Hraise).
  rewrite Hrun in Hlog, Hfields. cbn [fst snd] in Hlog, Hfields.
  exists calls.
  assert (Hnolm : forall description,
             ~ In (LanguageModel description)
                  (DistanceMatrix Walking origin destination :: calls)).
  { intros description [Hin | Hin]; [discriminate Hin|].
    destruct (gmaps_client Walking origin destination) as [res|e] eqn:Hw.
    - rewrite (Hok res Hw) in Hin. destruct Hin as [Hin | []].
      discriminate Hin.
    - rewrite (Hraise e Hw) in Hin. destruct Hin. }
  destruct (enrich repr ad lat lon gmaps_client true closest c log)
    as [[enriched|e] log1]; cbn [fst snd] in *; subst log1.
  - split; [reflexivity|]. repeat (split; [assumption|]).
    intros offer Hasm. cbn [fst] in Hasm.
    destruct (Hfields enriched eq_refl) as (Hwt & Ha & Hm & Hk).
    destruct (assemble_inv _ _ _ _ Hasm)
      as (_ & _ & _ & _ & Hw' & Ht' & Ha' & Hm' & Hk').
    rewrite Hrun, Hw', Ht', Ha', Hm', Hk'. repeat split; assumption.
  - split; [reflexivity|]. repeat (split; [assumption|]).
    intros offer H. discriminate H.
Qed.

End ExtractionFacts.

(** ** Facts about the sheet and the discovery pass *)

Lemma eq_str_true_iff (obj : pyval) (literal : string) :
  Py.eq_str obj literal = true <-> obj = PStr literal.
Proof.
  destruct obj; simpl; split; intros H; try discriminate H.
  - apply String.eqb_eq in H. subst. reflexivity.
  - injection H as ->. apply String.eqb_refl.
Qed.

Lemma status_GREEN_iff (data : offer_data) :
  status data = "GREEN"%string <-> walking_time data <> PStr "N/A".
Proof.
  unfold status, meets_criteria.
  destruct (Py.eq_str (walking_time data) "N/A") eqn:E; simpl.
  - apply eq_str_true_iff in E. split; [discriminate | congruence].
  - split; [|reflexivity]. intros _ H. apply eq_str_true_iff in H. congruence.
Qed.

Lemma status_RED_iff (data : offer_data) :
  status data = "RED"%string <-> walking_time data = PStr "N/A".
Proof.
  unfold status, meets_criteria.
  destruct (Py.eq_str (walking_time data) "N/A") eqn:E; simpl.
  - apply eq_str_true_iff in E. split; [trivial | reflexivity].
  - split; [discriminate|]. intros H. apply eq_str_true_iff in H. congruence.
Qed.

Section MarkerFacts.

Variable libm_sin libm_cos : float -> float.
Variable libm_atan2 : float -> float -> float.
Variable stations : station_table.
Variable parse_float : string -> option float.
Variable repr : pyval -> string.

Local Abbreviation check :=
  (should_process_offer libm_sin libm_cos libm_atan2 stations).
Local Abbreviation extract :=
  (extract_offer_data libm_sin libm_cos libm_atan2 stations parse_float repr).
Local Abbreviation process :=
  (process_offer libm_sin libm_cos libm_atan2 stations parse_float repr).

(** C10: the row [save_to_sheets] appends starts with the status marker,
    which is "GREEN" exactly when the record's walking time differs from
    "N/A" and "RED" otherwise.  So an offer that meets the proximity
    threshold but for which the travel-time lookup gave "N/A" for the
    walking time is extracted, appended and marked "RED". *)
Theorem marker_follows_walking_time :
  (forall data ws,
      ws_rows (save_to_sheets data ws) = ws_rows ws ++ [row_data data] /\
      hd PNone (row_data data) = PStr (status data)) /\
  (forall data,
      (status data = "GREEN"%string <-> walking_time data <> PStr "N/A") /\
      (status data = "RED"%string <-> walking_time data = PStr "N/A")) /\
  (forall data gmaps_client log ad lat lon closest c transit_time log1
          offer log' ws,
      offer_coordinates data = Ok (ad, lat, lon) ->
      check lat lon = Ok (true, closest, c) ->
      get_travel_times gmaps_client (PFloat (fst c)) (PFloat (snd c))
        lat lon log = (Ok (NA, transit_time), log1) ->
      extract data gmaps_client log = (Ok offer, log') ->
      process (Ok data) gmaps_client ws log
        = (0%Z, save_to_sheets offer ws, log') /\
      hd PNone (last (ws_rows (save_to_sheets offer ws)) [])
        = PStr "RED").
Proof.
  split; [|split].
  - intros data ws. split; reflexivity.
  - intros data. split; [apply status_GREEN_iff | apply status_RED_iff].
  - intros data gmaps_client log ad lat lon closest c t log1 offer log' ws
      Hloc Hcheck Htravel Hrun.
    split.
    + unfold process_offer. rewrite Hrun. reflexivity.
    + simpl. rewrite last_last. simpl.
      assert (Hred : status offer = "RED"%string).
      { apply status_RED_iff.
        rewrite (extract_offer_data_run _ _ _ _ _ _ data gmaps_client log
                   _ _ _ _ _ _ Hloc Hcheck) in Hrun.
        destruct (enrich_near repr ad lat lon gmaps_client closest c log)
          as [_ Hfields].
        destruct (enrich repr ad lat lon gmaps_client true closest c log)
          as [[enriched|e] log2]; [|discriminate Hrun].
        injection Hrun as Hasm _.
        destruct (Hfields enriched eq_refl) as (Hwt & _).
        rewrite Htravel in Hwt. cbn [fst] in Hwt. injection Hwt as Hw _.
        destruct (assemble_inv _ _ _ _ _ Hasm)
          as (_ & _ & _ & _ & Hw' & _).
        rewrite Hw'. symmetry. exact Hw. }
      rewrite Hred. reflexivity.
Qed.

End MarkerFacts.

Section DiscoveryFacts.

Variable repr : pyval -> string.
Variable cell_text : pyval -> string.

Local Abbreviation existing := (get_existing_offers cell_text).


(** After an append below an existing row, the identifier written is among
    those [get_existing_offers] reads back. *)
Lemma appended_id_exists (data : offer_data) (ws : worksheet) :
  ws_rows ws <> [] ->
  In (cell_text (offer_id data)) (existing (Ok (save_to_sheets data ws))).
Proof.
  intros Hrows. unfold get_existing_offers, col_values, save_to_sheets.
  cbn [ws_rows]. rewrite map_app.
  destruct (ws_rows ws) as [|top rest]; [contradiction Hrows; reflexivity|].
  simpl. apply in_or_app. right. left. reflexivity.
Qed.

End DiscoveryFacts.

(** ** Runs on the sample data *)

Module Runs.

Import Sample.
Local Open Scope string_scope.
Local Open Scope float_scope.

Local Abbreviation centrum := (52.2297, 21.0122).
Local Abbreviation at_centrum := (PFloat 52.2297, PFloat 21.0122).

(** Of two equidistant stations the one listed first is returned. *)
Example first_of_equidistant_wins :
  find_closest_metro_station series_sin series_cos series_atan2
    twin_stations (PFloat 52.2360) (PFloat 21.0080)
    = Ok (Some "Swietokrzyska M1") /\
  forallb (measurable series_sin series_cos series_atan2
             (PFloat 52.2360) (PFloat 21.0080)) twin_stations = true.
Proof.
  split; vm_compute; reflexivity.
Qed.

(** A listing ten kilometres out: nothing is called, the five fields are
    "N/A". *)
Lemma far_offer_not_enriched_witness :
  offer_coordinates listing_far
    = Ok (ad_at 52.3200 21.0300, PFloat 52.3200, PFloat 21.0300) /\
  should_process (PFloat 52.3200) (PFloat 21.0300)
    = Ok (false, Some "Centrum", centrum) /\
  snd (extract listing_far client_ok []) = [] /\
  forall offer,
    fst (extract listing_far client_ok []) = Ok offer ->
    walking_time offer = NA /\ transit_time offer = NA /\
    available_from offer = NA /\ total_monthly_cost offer = NA /\
    key_advantages offer = NA.
Proof.
  split; [reflexivity|].
  split; [vm_compute; reflexivity|].
  apply (far_offer_not_enriched series_sin series_cos series_atan2 stations
           parse_decimal repr_opaque listing_far client_ok []
           (ad_at 52.3200 21.0300) (PFloat 52.3200) (PFloat 21.0300)
           (Some "Centrum") centrum).
  - reflexivity.
  - vm_compute; reflexivity.
Defined.

(** The listing with price 3000 and rent 500: the total is 3500. *)
Lemma total_cost_is_sum_witness :
  exists offer log',
    extract listing_near client_ok [] = (Ok offer, log') /\
    total_cost offer = 3500 /\
    total_cost offer = base_cost offer + rent offer /\
    exists ad lat lon,
      offer_coordinates listing_near = Ok (ad, lat, lon) /\
      characteristic_value parse_decimal ad 0 = Ok (base_cost offer) /\
      characteristic_value parse_decimal ad 1 = Ok (rent offer).
Proof.
  eexists. eexists. split; [vm_compute; reflexivity|].
  split; [reflexivity|].
  eapply (total_cost_is_sum series_sin series_cos series_atan2 stations
            parse_decimal repr_opaque listing_near client_ok []).
  vm_compute; reflexivity.
Defined.

(** A listing at "Centrum" with both lookups answering. *)
Lemma near_offer_travel_times_only_witness :
  offer_coordinates listing_near
    = Ok (ad_at 52.2297 21.0122, PFloat 52.2297, PFloat 21.0122) /\
  should_process (PFloat 52.2297) (PFloat 21.0122)
    = Ok (true, Some "Centrum", centrum) /\
  exists calls,
    snd (extract listing_near client_ok [])
      = ([] ++ DistanceMatrix Walking at_centrum at_centrum :: calls)%list /\
    (forall res, client_ok Walking at_centrum at_centrum = Ok res ->
                 calls = [DistanceMatrix Transit at_centrum at_centrum]) /\
    (forall e, client_ok Walking at_centrum at_centrum = Raise e ->
               calls = []) /\
    (forall description,
        ~ In (LanguageModel description)
             (DistanceMatrix Walking at_centrum at_centrum :: calls)) /\
    (forall offer,
        fst (extract listing_near client_ok []) = Ok offer ->
        fst (get_travel_times client_ok (PFloat 52.2297) (PFloat 21.0122)
               (PFloat 52.2297) (PFloat 21.0122) [])
          = Ok (walking_time offer, transit_time offer) /\
        available_from offer = NA /\ total_monthly_cost offer = NA /\
        key_advantages offer = NA).
Proof.
  split; [reflexivity|].
  split; [vm_compute; reflexivity|].
  apply (near_offer_travel_times_only series_sin series_cos series_atan2
           stations parse_decimal repr_opaque listing_near client_ok []
           (ad_at 52.2297 21.0122) (PFloat 52.2297) (PFloat 21.0122)
           (Some "Centrum") centrum).
  - reflexivity.
  - vm_compute; reflexivity.
Defined.

(** C6 (as stated) fails: the listing lies at "Centrum", within the
    threshold, and both travel times are filled in, but no call to the
    language model is made and its three fields stay "N/A". *)
Lemma language_model_not_invoked :
  should_process (PFloat 52.2297) (PFloat 21.0122)
    = Ok (true, Some "Centrum", centrum) /\
  exists offer log',
    extract listing_near client_ok [] = (Ok offer, log') /\
    log' = [DistanceMatrix Walking at_centrum at_centrum;
            DistanceMatrix Transit at_centrum at_centrum] /\
    (forall description, ~ In (LanguageModel description) log') /\
    walking_time offer = PStr "7 mins" /\
    transit_time offer = PStr "4 mins" /\
    available_from offer = PStr "N/A" /\
    total_monthly_cost offer = PStr "N/A" /\
    key_advantages offer = PStr "N/A".
Proof.
  split; [vm_compute; reflexivity|].
  eexists. eexists. split; [vm_compute; reflexivity|].
  split; [reflexivity|].
  split.
  - intros description [H | [H | []]]; discriminate H.
  - repeat split.
Qed.

(** C3: the listing lies at "Centrum", its distance is within the
    threshold, and the walking lookup has the status "ZERO_RESULTS": the
    run succeeds and the row written is marked "RED". *)
Lemma marker_red_within_threshold :
  should_process (PFloat 52.2297) (PFloat 21.0122)
    = Ok (true, Some "Centrum", centrum) /\
  distance (PFloat 52.2297) (PFloat 21.0122) (PFloat 52.2297) (PFloat 21.0122)
    = Ok 0 /\
  exists ws' log',
    process (Ok listing_near) client_no_walking sheet_with_header []
      = (0%Z, ws', log') /\
    List.length (ws_rows ws') = 2%nat /\
    hd PNone (last (ws_rows ws') []) = PStr "RED" /\
    ws_fills ws' = [(2%nat, RedFill)].
Proof.
  split; [vm_compute; reflexivity|].
  split; [vm_compute; reflexivity|].
  eexists. eexists. split; [vm_compute; reflexivity|].
  repeat split.
Qed.

(** The same listing and client, through the general statement. *)
Lemma marker_follows_walking_time_witness :
  offer_coordinates listing_near
    = Ok (ad_at 52.2297 21.0122, PFloat 52.2297, PFloat 21.0122) /\
  should_process (PFloat 52.2297) (PFloat 21.0122)
    = Ok (true, Some "Centrum", centrum) /\
  get_travel_times client_no_walking (PFloat 52.2297) (PFloat 21.0122)
    (PFloat 52.2297) (PFloat 21.0122) []
    = (Ok (NA, PStr "4 mins"),
       [DistanceMatrix Walking at_centrum at_centrum;
        DistanceMatrix Transit at_centrum at_centrum]) /\
  exists offer log',
    extract listing_near client_no_walking [] = (Ok offer, log') /\
    process (Ok listing_near) client_no_walking sheet_with_header []
      = (0%Z, save_to_sheets offer sheet_with_header, log') /\
    hd PNone (last (ws_rows (save_to_sheets offer sheet_with_header)) [])
      = PStr "RED".
Proof.
  split; [reflexivity|].
  split; [vm_compute; reflexivity|].
  split; [reflexivity|].
  eexists. eexists. split; [vm_compute; reflexivity|].
  destruct (marker_follows_walking_time series_sin series_cos series_atan2
              stations parse_decimal repr_opaque) as (_ & _ & Hred).
  apply (Hred listing_near client_no_walking []
           (ad_at 52.2297 21.0122) (PFloat 52.2297) (PFloat 21.0122)
           (Some "Centrum") centrum (PStr "4 mins")
           [DistanceMatrix Walking at_centrum at_centrum;
            DistanceMatrix Transit at_centrum at_centrum]
           _ _ sheet_with_header).
  - reflexivity.
  - vm_compute; reflexivity.
  - reflexivity.
  - vm_compute; reflexivity.
Defined.


End Runs.

(** ** More about the nearest-station query *)

Section ScanFacts.

Variable libm_sin libm_cos : float -> float.
Variable libm_atan2 : float -> float -> float.
Variable stations : station_table.

Local Open Scope result_scope.
Local Open Scope float_scope.

Local Abbreviation dist := (station_distance libm_sin libm_cos libm_atan2).
Local Abbreviation scan := (scan_stations libm_sin libm_cos libm_atan2).
Local Abbreviation find :=
  (find_closest_metro_station libm_sin libm_cos libm_atan2 stations).
Local Abbreviation check :=
  (should_process_offer libm_sin libm_cos libm_atan2 stations).

(** A key that occurs in a dictionary can be looked up. *)
Lemma dict_get_In {V : Type} (d : list (string * V)) (k : string) (v : V) :
  In (k, v) d -> exists v', dict_get d k = Ok v'.
Proof.
  induction d as [|[k' v'] rest IH]; simpl; intros Hin; [destruct Hin|].
  destruct (String.eqb k' k) eqn:E; [exists v'; reflexivity|].
  destruct Hin as [Heq | Hin]; [|apply IH; assumption].
  injection Heq as -> ->. rewrite String.eqb_refl in E. discriminate E.
Qed.

(** The station a scan returns is the one of its initial state or the name
    of an item it went over. *)
Lemma scan_stations_origin (lat lon : pyval) (items : station_table) :
  forall closest min_distance name,
    scan lat lon items closest min_distance = Ok (Some name) ->
    closest = Some name \/ exists c, In (name, c) items.
Proof.
  induction items as [|[n0 c0] rest IH]; simpl;
    intros closest min_distance name H.
  - injection H as ->. left. reflexivity.
  - apply bind_Ok_inv in H. destruct H as (d0 & _ & H).
    destruct (d0 <? min_distance).
    + destruct (IH _ _ _ H) as [Heq | [c Hin]].
      * injection Heq as <-. right. exists c0. left. reflexivity.
      * right. exists c. right. assumption.
    + destruct (IH _ _ _ H) as [Heq | [c Hin]].
      * left. assumption.
      * right. exists c. right. assumption.
Qed.

(** A scan that starts from a station ends with a station. *)
Lemma scan_stations_keeps_some (lat lon : pyval) (items : station_table) :
  forall name min_distance r,
    scan lat lon items (Some name) min_distance = Ok r ->
    exists name', r = Some name'.
Proof.
  induction items as [|[n0 c0] rest IH]; simpl; intros name min_distance r H.
  - injection H as <-. exists name. reflexivity.
  - apply bind_Ok_inv in H. destruct H as (d0 & _ & H).
    destruct (d0 <? min_distance); eapply IH; eassumption.
Qed.

(** A scan leaves its state alone exactly when no item beats the distance
    of the state. *)
Lemma scan_stations_unbeaten (lat lon : pyval) (items : station_table) :
  forall closest min_distance r,
    scan lat lon items closest min_distance = Ok r ->
    (forall n c d, In (n, c) items -> dist lat lon c = Ok d ->
                   (d <? min_distance) = false) ->
    r = closest.
Proof.
  induction items as [|[n0 c0] rest IH]; simpl;
    intros closest min_distance r H Hnone.
  - injection H as <-. reflexivity.
  - apply bind_Ok_inv in H. destruct H as (d0 & Hd0 & H).
    rewrite (Hnone n0 c0 d0 (or_introl eq_refl) Hd0) in H.
    apply (IH _ _ _ H). intros n c d Hin Hd.
    apply (Hnone n c d); [right; assumption | assumption].
Qed.

Lemma scan_stations_beaten (lat lon : pyval) (items : station_table) :
  forall closest min_distance r n c d,
    scan lat lon items closest min_distance = Ok r ->
    In (n, c) items -> dist lat lon c = Ok d ->
    (d <? min_distance) = true ->
    exists name, r = Some name.
Proof.
  induction items as [|[n0 c0] rest IH]; simpl;
    intros closest min_distance r n c d H Hin Hd Hlt; [destruct Hin|].
  apply bind_Ok_inv in H. destruct H as (d0 & Hd0 & H).
  destruct (d0 <? min_distance) eqn:E.
  - eapply scan_stations_keeps_some; eassumption.
  - destruct Hin as [Heq | Hin].
    + injection Heq as <- <-. rewrite Hd0 in Hd. injection Hd as <-.
      congruence.
    + eapply IH; eassumption.
Qed.

(** X1: a station name that [find_closest_metro_station] returns is a key
    of the table, so the lookup of its coordinates succeeds. *)
Theorem found_station_is_key (lat lon : pyval) (name : string) :
  find lat lon = Ok (Some name) ->
  (exists c, In (name, c) stations) /\
  exists c, station_lookup stations (Some name) = Ok c.
Proof.
  intros H. unfold find_closest_metro_station in H.
  destruct (scan_stations_origin _ _ _ _ _ _ H) as [Heq | [c Hin]];
    [discriminate Heq|].
  split; [exists c; assumption|].
  simpl. eapply dict_get_In. eassumption.
Qed.

(** X2: when the query returns, it returns [None] exactly when no station
    of the table has a distance below [float("inf")]: the table is empty,
    or every distance is NaN or infinite. *)
Theorem finds_nothing_iff (lat lon : pyval) (r : option string) :
  find lat lon = Ok r ->
  (r = None <->
   forall n c d, In (n, c) stations -> dist lat lon c = Ok d ->
                 (d <? infinity) = false).
Proof.
  intros H. unfold find_closest_metro_station in H. split.
  - intros -> n c d Hin Hd.
    destruct (d <? infinity) eqn:E; [|reflexivity].
    destruct (scan_stations_beaten _ _ _ _ _ _ _ _ _ H Hin Hd E)
      as [name Hname].
    discriminate Hname.
  - intros Hnone. eapply scan_stations_unbeaten; eassumption.
Qed.

(** The first distance computation that raises ends the scan with its
    exception. *)
Lemma scan_stations_raises (lat lon : pyval) (items : station_table)
    (e : exn) :
  items <> [] ->
  (forall n c, In (n, c) items -> dist lat lon c = Raise e) ->
  forall closest min_distance,
    scan lat lon items closest min_distance = Raise e.
Proof.
  destruct items as [|[n0 c0] rest]; intros Hne Hall closest min_distance;
    [contradiction Hne; reflexivity|].
  simpl. rewrite (Hall n0 c0 (or_introl eq_refl)). reflexivity.
Qed.

(** A coordinate that is not a number makes the distance a [TypeError],
    whatever the C library computes. *)
Lemma calculate_distance_TypeError (lat1 lon1 lat2 lon2 : pyval) :
  as_double lat1 = Raise TypeError \/
  (exists x, as_double lat1 = Ok x /\ as_double lon1 = Raise TypeError) ->
  calculate_distance libm_sin libm_cos libm_atan2 lat1 lon1 lat2 lon2
    = Raise TypeError.
Proof.
  unfold calculate_distance, radians.
  intros [H | (x & Hx & H)].
  - rewrite H. reflexivity.
  - rewrite Hx, H. reflexivity.
Qed.

(** X3: over a non-empty table, a query whose latitude or longitude is not
    a number (JSON null, a string, a list, an object) raises [TypeError],
    in the query and in the proximity check alike. *)
Theorem non_numeric_coordinate_raises (lat lon : pyval) :
  stations <> [] ->
  as_double lat = Raise TypeError \/
  (exists x, as_double lat = Ok x /\ as_double lon = Raise TypeError) ->
  find lat lon = Raise TypeError /\ check lat lon = Raise TypeError.
Proof.
  intros Hne Hbad.
  assert (Hfind : find lat lon = Raise TypeError).
  { apply scan_stations_raises; [assumption|].
    intros n c _. apply calculate_distance_TypeError. assumption. }
  split; [assumption|].
  unfold should_process_offer. rewrite Hfind. reflexivity.
Qed.

End ScanFacts.

(** ** More about the extraction *)

(** X4: [analyze_offer_with_llm] never raises and makes exactly one call to
    the language model, with the description it was given.  When the call
    answers, the three answers are returned; when it raises, all three
    fields are the same sentinel "Error in analysis". *)
Theorem analysis_never_raises (lm : language_model) (description : string)
    (log : list call) :
  exists answers,
    analyze_offer_with_llm lm description log
      = (Ok answers, log ++ [LanguageModel description]) /\
    (forall a m k, lm description = Ok (a, m, k) ->
       answers = {| analysis_available_from := a;
                    analysis_total_monthly_cost := m;
                    analysis_key_advantages := k |}) /\
    (forall e, lm description = Raise e ->
       answers = {| analysis_available_from := PStr "Error in analysis";
                    analysis_total_monthly_cost := PStr "Error in analysis";
                    analysis_key_advantages := PStr "Error in analysis" |}).
Proof.
  unfold analyze_offer_with_llm, IOMonad.try_except, IOMonad.bind,
    IOMonad.invoke, IOMonad.ret.
  destruct (lm description) as [[[a m] k]|e]; eexists;
    (split; [reflexivity|]); split.
  - intros a' m' k' H. injection H as <- <- <-. reflexivity.
  - intros e H. discriminate H.
  - intros a m k H. discriminate H.
  - intros e' _. reflexivity.
Qed.

(** X5: the area is the value of the first characteristic labelled
    "Powierzchnia"; when every characteristic has another label it is
    "N/A". *)
Theorem find_area_first_match (characteristics : list pyval) (area : pyval) :
  find_area characteristics = Ok area ->
  (area = NA /\
   forall feature, In feature characteristics ->
     exists label, Py.getitem feature "label" = Ok label /\
                   Py.eq_str label "Powierzchnia" = false)
  \/
  (exists before feature after label,
      characteristics = before ++ feature :: after /\
      Py.getitem feature "label" = Ok label /\
      Py.eq_str label "Powierzchnia" = true /\
      Py.getitem feature "value" = Ok area /\
      forall earlier, In earlier before ->
        exists label', Py.getitem earlier "label" = Ok label' /\
                       Py.eq_str label' "Powierzchnia" = false).
Proof.
  revert area.
  induction characteristics as [|f rest IH]; simpl; intros area H.
  - injection H as <-. left. split; [reflexivity | intros feature []].
  - apply bind_Ok_inv in H. destruct H as (label & Hlabel & H).
    destruct (Py.eq_str label "Powierzchnia") eqn:E.
    + right. exists [], f, rest, label. repeat split; trivial.
      intros earlier [].
    + destruct (IH area H)
        as [[Hna Hall] | (before & g & after & l & Hsplit & Hl & Hm & Hv & Hpre)].
      * left. split; [assumption|].
        intros feature [<- | Hin]; [exists label; split; assumption|].
        apply Hall. assumption.
      * right. exists (f :: before), g, after, l.
        repeat split; trivial.
        -- rewrite Hsplit. reflexivity.
        -- intros earlier [<- | Hin]; [exists label; split; assumption|].
           apply Hpre. assumption.
Qed.

(** A characteristic without a label ahead of the area ends the search
    with a [KeyError]. *)
Lemma find_area_missing_label (before after : list pyval) (feature : pyval)
    (e : exn) :
  (forall earlier, In earlier before ->
     exists label, Py.getitem earlier "label" = Ok label /\
                   Py.eq_str label "Powierzchnia" = false) ->
  Py.getitem feature "label" = Raise e ->
  find_area (before ++ feature :: after) = Raise e.
Proof.
  induction before as [|g rest IH]; simpl; intros Hpre Hbad.
  - rewrite Hbad. reflexivity.
  - destruct (Hpre g (or_introl eq_refl)) as (label & Hl & Hno).
    rewrite Hl. simpl. rewrite Hno. apply IH; [|assumption].
    intros earlier Hin. apply Hpre. right. assumption.
Qed.

Section DescriptionFacts.

Variable repr : pyval -> string.

Local Open Scope string_scope.

(** X6: the property details list exactly the characteristics whose key is
    none of "price", "rent" and "m": every line comes from such a
    characteristic, and every such characteristic has its line. *)
Theorem detail_lines_skip_costs (characteristics : list pyval)
    (lines : list string) :
  detail_lines repr characteristics = Ok lines ->
  (forall line, In line lines ->
     exists char key label value,
       In char characteristics /\
       Py.getitem char "key" = Ok key /\
       Py.in_strs key ["price"; "rent"; "m"] = false /\
       Py.getitem char "label" = Ok label /\
       Py.getitem char "localizedValue" = Ok value /\
       line = "- " ++ Py.str repr label ++ ": " ++ Py.str repr value) /\
  (forall char key,
     In char characteristics ->
     Py.getitem char "key" = Ok key ->
     Py.in_strs key ["price"; "rent"; "m"] = false ->
     exists label value,
       Py.getitem char "label" = Ok label /\
       Py.getitem char "localizedValue" = Ok value /\
       In ("- " ++ Py.str repr label ++ ": " ++ Py.str repr value) lines) /\
  List.length lines <= List.length characteristics.
Proof.
  revert lines.
  induction characteristics as [|c rest IH]; intros lines H;
    cbn [detail_lines] in H.
  - injection H as <-. repeat split.
    + intros line [].
    + intros char key [].
    + reflexivity.
  - apply bind_Ok_inv in H. destruct H as (key & Hkey & H).
    destruct (Py.in_strs key ["price"; "rent"; "m"]) eqn:Hskip;
      cbn [negb] in H.
    + destruct (IH lines H) as (Hsound & Hcomplete & Hlen).
      repeat split.
      * intros line Hin.
        destruct (Hsound line Hin) as (ch & k & l & v & Hch & Hrest).
        exists ch, k, l, v. split; [right; assumption | assumption].
      * intros char k [<- | Hin] Hk Hno.
        -- rewrite Hkey in Hk. injection Hk as <-. congruence.
        -- apply (Hcomplete char k); assumption.
      * simpl. apply Nat.le_le_succ_r. assumption.
    + apply bind_Ok_inv in H. destruct H as (label & Hlabel & H).
      apply bind_Ok_inv in H. destruct H as (value & Hvalue & H).
      apply bind_Ok_inv in H. destruct H as (lines' & Hrest & H).
      injection H as <-.
      destruct (IH lines' Hrest) as (Hsound & Hcomplete & Hlen).
      repeat split.
      * intros line [<- | Hin].
        -- exists c, key, label, value.
           repeat split; trivial. left. reflexivity.
        -- destruct (Hsound line Hin) as (ch & k & l & v & Hch & Hmore).
           exists ch, k, l, v. split; [right; assumption | assumption].
      * intros char k [<- | Hin] Hk Hno.
        -- exists label, value. repeat split; trivial. left. reflexivity.
        -- destruct (Hcomplete char k Hin Hk Hno) as (l & v & Hl & Hv & Hline).
           exists l, v. repeat split; trivial. right. assumption.
      * simpl. apply le_n_S. assumption.
Qed.

End DescriptionFacts.

Section AddressFacts.

Local Open Scope string_scope.

(** X7: when the three names of the address are strings, the full address
    is those that are not empty, in the order street, district, city,
    separated by a comma and a space. *)
Theorem full_address_joins_names (ad : pyval) (street district city : string) :
  path ad ["location"; "address"; "street"; "name"] = Ok (PStr street) ->
  path ad ["location"; "address"; "district"; "name"] = Ok (PStr district) ->
  path ad ["location"; "address"; "city"; "name"] = Ok (PStr city) ->
  full_address ad
    = Ok (Py.join ", "
            (filter (fun name => negb (String.eqb name ""))
                    [street; district; city])).
Proof.
  intros Hs Hd Hc. unfold full_address. rewrite Hs, Hd, Hc. simpl.
  destruct (String.eqb street ""), (String.eqb district ""),
    (String.eqb city ""); reflexivity.
Qed.

(** X8: a name of the address that is neither empty nor a string, such as
    a number, makes the address a [TypeError]; a name that is JSON null is
    left out like an empty one. *)
Theorem full_address_names_must_be_text (ad street district city : pyval) :
  path ad ["location"; "address"; "street"; "name"] = Ok street ->
  path ad ["location"; "address"; "district"; "name"] = Ok district ->
  path ad ["location"; "address"; "city"; "name"] = Ok city ->
  ((exists name, In name [street; district; city] /\
                 Py.truthy name = true /\ Py.as_str name = Raise TypeError) ->
   full_address ad = Raise TypeError) /\
  (street = PNone ->
   forall d c, district = PStr d -> city = PStr c ->
     full_address ad
       = Ok (Py.join ", "
               (filter (fun name => negb (String.eqb name "")) [d; c]))).
Proof.
  intros Hs Hd Hc. unfold full_address. rewrite Hs, Hd, Hc. split.
  - intros (name & Hin & Htrue & Hbad). simpl.
    assert (Hcase : forall v, Py.as_str v = Raise TypeError
                              \/ exists s, v = PStr s).
    { intros v. destruct v; simpl; auto. right. eexists. reflexivity. }
    destruct Hin as [<- | [<- | [<- | []]]]; rewrite ?Htrue.
    + simpl. rewrite Hbad. reflexivity.
    + destruct (Py.truthy street); simpl.
      * destruct (Hcase street) as [Hr | [s ->]];
          [rewrite Hr; reflexivity|]. simpl. rewrite Hbad. reflexivity.
      * rewrite Hbad. reflexivity.
    + destruct (Py.truthy street); simpl.
      * destruct (Hcase street) as [Hr | [s ->]];
          [rewrite Hr; reflexivity|]. simpl.
        destruct (Py.truthy district); simpl.
        -- destruct (Hcase district) as [Hr | [s' ->]];
             [rewrite Hr; reflexivity|]. simpl. rewrite Hbad. reflexivity.
        -- rewrite Hbad. reflexivity.
      * destruct (Py.truthy district); simpl.
        -- destruct (Hcase district) as [Hr | [s' ->]];
             [rewrite Hr; reflexivity|]. simpl. rewrite Hbad. reflexivity.
        -- rewrite Hbad. reflexivity.
  - intros -> d c -> ->. simpl.
    destruct (String.eqb d ""), (String.eqb c ""); reflexivity.
Qed.

End AddressFacts.

Section RecordFacts.

Variable libm_sin libm_cos : float -> float.
Variable libm_atan2 : float -> float -> float.
Variable stations : station_table.
Variable parse_float : string -> option float.
Variable repr : pyval -> string.

Local Abbreviation find :=
  (find_closest_metro_station libm_sin libm_cos libm_atan2 stations).
Local Abbreviation check :=
  (should_process_offer libm_sin libm_cos libm_atan2 stations).
Local Abbreviation extract :=
  (extract_offer_data libm_sin libm_cos libm_atan2 stations parse_float repr).

(** X9: the extraction calls a service only after the proximity check has
    returned true.  A listing whose coordinates cannot be read, whose
    check raises or whose check gives false leaves the call log as it
    was. *)
Theorem provider_calls_need_threshold (data : pyval) (gmaps_client : gmaps)
    (log : list call) :
  snd (extract data gmaps_client log) <> log ->
  exists ad lat lon closest c,
    offer_coordinates data = Ok (ad, lat, lon) /\
    check lat lon = Ok (true, closest, c).
Proof.
  intros Hcalls.
  destruct (offer_coordinates data) as [[[ad lat] lon]|e] eqn:Hloc.
  - destruct (check lat lon) as [[[flag closest] c]|e] eqn:Hcheck.
    + destruct flag.
      * exists ad, lat, lon, closest, c. split; [reflexivity | assumption].
      * exfalso. apply Hcalls.
        rewrite (extract_offer_data_run _ _ _ _ _ _ data gmaps_client log
                   _ _ _ _ _ _ Hloc Hcheck).
        destruct (enrich_far repr ad lat lon gmaps_client closest c log)
          as [Hlog _].
        destruct (enrich repr ad lat lon gmaps_client false closest c log)
          as [[enriched|e] log1]; exact Hlog.
    + exfalso. apply Hcalls.
      unfold extract_offer_data, IOMonad.bind, IOMonad.lift.
      rewrite Hloc, Hcheck. reflexivity.
  - exfalso. apply Hcalls.
    unfold extract_offer_data, IOMonad.bind, IOMonad.lift.
    rewrite Hloc. reflexivity.
Qed.

(** Everything [assemble] reads from the advertisement. *)
Lemma assemble_sources (ad : pyval) (closest : option string)
    (enriched : enrichment) (offer : offer_data) :
  assemble parse_float ad closest enriched = Ok offer ->
  Py.getitem ad "url" = Ok (full_url offer) /\
  Py.getitem ad "id" = Ok (offer_id offer) /\
  Py.getitem ad "slug" = Ok (slug offer) /\
  full_address ad = Ok (address offer) /\
  description offer = e_comprehensive_description enriched /\
  exists characteristics items,
    Py.getitem ad "characteristics" = Ok characteristics /\
    Py.iterate characteristics = Ok items /\
    find_area items = Ok (area offer).
Proof.
  unfold assemble. intros H.
  apply bind_Ok_inv in H. destruct H as (b & _ & H).
  apply bind_Ok_inv in H. destruct H as (r & _ & H).
  apply bind_Ok_inv in H. destruct H as (chars & Hchars & H).
  apply bind_Ok_inv in H. destruct H as (items & Hitems & H).
  apply bind_Ok_inv in H. destruct H as (a & Harea & H).
  apply bind_Ok_inv in H. destruct H as (url & Hurl & H).
  apply bind_Ok_inv in H. destruct H as (id & Hid & H).
  apply bind_Ok_inv in H. destruct H as (sl & Hslug & H).
  apply bind_Ok_inv in H. destruct H as (addr & Haddr & H).
  injection H as <-. simpl. repeat split; trivial.
  exists chars, items. repeat split; assumption.
Qed.

(** X10: where the fields of a returned record come from.  The station is
    the one the query found and is a key of the table, never [None]; URL,
    identifier and slug are those of the advertisement, unchanged; the
    address is the full address and the area the result of the search
    among the characteristics. *)
Theorem record_fields_come_from_listing (data : pyval) (gmaps_client : gmaps)
    (log log' : list call) (offer : offer_data) :
  extract data gmaps_client log = (Ok offer, log') ->
  exists ad lat lon name,
    offer_coordinates data = Ok (ad, lat, lon) /\
    closest_metro offer = Some name /\
    find lat lon = Ok (Some name) /\
    (exists c, In (name, c) stations) /\
    Py.getitem ad "url" = Ok (full_url offer) /\
    Py.getitem ad "id" = Ok (offer_id offer) /\
    Py.getitem ad "slug" = Ok (slug offer) /\
    full_address ad = Ok (address offer) /\
    exists characteristics items,
      Py.getitem ad "characteristics" = Ok characteristics /\
      Py.iterate characteristics = Ok items /\
      find_area items = Ok (area offer).
Proof.
  intros H.
  destruct (extract_offer_data_inv _ _ _ _ _ _ _ _ _ _ _ H)
    as (ad & lat & lon & flag & closest & c & enriched
        & Hloc & Hcheck & _ & Hasm).
  destruct (should_process_offer_inv _ _ _ _ _ _ _ _ _ Hcheck)
    as (name & d & -> & Hfind & _).
  destruct (assemble_inv _ _ _ _ _ Hasm) as (_ & _ & _ & Hclosest & _).
  destruct (assemble_sources _ _ _ _ Hasm)
    as (Hurl & Hid & Hslug & Haddr & _ & Harea).
  exists ad, lat, lon, name. repeat split; trivial.
  unfold find_closest_metro_station in Hfind.
  destruct (scan_stations_origin _ _ _ _ _ _ _ _ _ Hfind) as [Heq | Hin];
    [discriminate Heq | assumption].
Qed.

(** X11: the description of a returned record.  Outside the threshold it is
    the description of the advertisement, whatever its type; within the
    threshold it is a string, the text assembled for the language model,
    which requires the advertisement's description to be a string. *)
Theorem record_description (data : pyval) (gmaps_client : gmaps)
    (log log' : list call) (offer : offer_data) :
  extract data gmaps_client log = (Ok offer, log') ->
  exists ad lat lon flag closest c,
    offer_coordinates data = Ok (ad, lat, lon) /\
    check lat lon = Ok (flag, closest, c) /\
    (flag = false -> Py.getitem ad "description" = Ok (description offer)) /\
    (flag = true ->
     exists text original,
       description offer = PStr text /\
       Py.getitem ad "description" = Ok (PStr original) /\
       comprehensive_description repr ad closest
         (walking_time offer) (transit_time offer) = Ok text).
Proof.
  intros H.
  destruct (extract_offer_data_inv _ _ _ _ _ _ _ _ _ _ _ H)
    as (ad & lat & lon & flag & closest & c & enriched
        & Hloc & Hcheck & Henrich & Hasm).
  destruct (assemble_inv _ _ _ _ _ Hasm)
    as (_ & _ & _ & _ & Hw & Ht & _).
  destruct (assemble_sources _ _ _ _ Hasm) as (_ & _ & _ & _ & Hdesc & _).
  exists ad, lat, lon, flag, closest, c. repeat split; trivial.
  - intros ->. unfold enrich, IOMonad.bind, IOMonad.lift, IOMonad.ret in Henrich.
    destruct (Py.getitem ad "description") as [original|e];
      [|discriminate Henrich].
    injection Henrich as <- _. rewrite Hdesc. reflexivity.
  - intros ->. unfold enrich, IOMonad.bind, IOMonad.lift, IOMonad.ret in Henrich.
    destruct (get_travel_times gmaps_client (PFloat (fst c)) (PFloat (snd c))
                lat lon log) as [[[w t]|e] log1]; [|discriminate Henrich].
    cbn [fst snd] in Henrich.
    destruct (comprehensive_description repr ad closest w t) as [text|e] eqn:Htext;
      [|discriminate Henrich].
    injection Henrich as <- _. simpl in Hw, Ht, Hdesc.
    rewrite Hw, Ht, Hdesc.
    unfold comprehensive_description in Htext.
    repeat (apply bind_Ok_inv in Htext;
            destruct Htext as (? & ? & Htext)).
    match goal with
    | Hs : Py.as_str ?o = Ok ?s, Hg : Py.getitem ad "description" = Ok ?o |- _ =>
        destruct o; try discriminate Hs; simpl in Hs;
        injection Hs as ->; exists text, s
    end.
    repeat split; trivial.
    unfold comprehensive_description.
    repeat match goal with
           | Hx : ?m = Ok _ |- context [ResultMonad.bind ?m _] =>
               rewrite Hx; cbn [ResultMonad.bind]
           end.
    assumption.
Qed.

End RecordFacts.

(** ** More about the discovery pass and the script *)

Section DiscoveryMore.

Variable repr : pyval -> string.
Variable cell_text : pyval -> string.

Local Open Scope string_scope.

Local Abbreviation existing := (get_existing_offers cell_text).
Local Abbreviation discover := (fetch_offers_list repr cell_text).

(** The slug an item contributes to the work list: its own when the
    identifier is new, none otherwise. *)
Local Abbreviation contribution existing_offers :=
  (fun offer =>
     match Py.getitem offer "id", Py.getitem offer "slug" with
     | Ok id, Ok slug => if is_new repr existing_offers id then [slug] else []
     | _, _ => []
     end).

(** X12: what [get_existing_offers] reads after an append.  Below an
    existing first row the appended identifier's text comes last, after
    the identifiers read before; on a worksheet without any row the
    appended record becomes the first row and nothing is read. *)
Theorem existing_offers_after_append (data : offer_data) (ws : worksheet) :
  existing (Ok (save_to_sheets data ws))
  = match ws_rows ws with
    | [] => []
    | _ :: _ => (existing (Ok ws) ++ [cell_text (offer_id data)])%list
    end.
Proof.
  unfold get_existing_offers, col_values, save_to_sheets. cbn [ws_rows].
  rewrite map_app. destruct (ws_rows ws) as [|top rest]; reflexivity.
Qed.

Lemma new_offers_filter (offers : list pyval) (existing_offers : list string) :
  (forall offer, In offer offers ->
     exists id slug, Py.getitem offer "id" = Ok id /\
                     Py.getitem offer "slug" = Ok slug) ->
  exists kept,
    new_offers repr offers existing_offers = Ok kept /\
    slugs_of kept = Ok (flat_map (contribution existing_offers) offers).
Proof.
  induction offers as [|o rest IH]; intros Hwf.
  - exists []. split; reflexivity.
  - destruct (Hwf o (or_introl eq_refl)) as (id & slug & Hid & Hslug).
    destruct IH as (kept & Hkept & Hslugs).
    { intros offer Hin. apply Hwf. right. assumption. }
    cbn [new_offers flat_map]. rewrite Hid, Hslug. cbn [ResultMonad.bind].
    destruct (is_new repr existing_offers id).
    + exists (o :: kept). rewrite Hkept. split; [reflexivity|].
      cbn [slugs_of ResultMonad.bind]. rewrite Hslug, Hslugs. reflexivity.
    + exists kept. split; assumption.
Qed.

(** X13: on a search page whose items all carry an identifier and a slug,
    the work list is the slugs of the items whose identifier's text is not
    in column K below the header, in the order of the page. *)
Theorem work_list_is_filter (data : pyval) (sheet : result worksheet)
    (offers : list pyval) :
  path data ["props"; "pageProps"; "data"; "searchAds"; "items"]
    = Ok (PList offers) ->
  (forall offer, In offer offers ->
     exists id slug, Py.getitem offer "id" = Ok id /\
                     Py.getitem offer "slug" = Ok slug) ->
  discover (Ok data) sheet
    = flat_map (contribution (existing sheet)) offers.
Proof.
  intros Hitems Hwf. unfold fetch_offers_list, list_new_slugs.
  cbn [ResultMonad.bind]. rewrite Hitems. cbn [ResultMonad.bind Py.iterate].
  destruct (new_offers_filter offers (existing sheet) Hwf)
    as (kept & Hkept & Hslugs).
  rewrite Hkept. cbn [ResultMonad.bind]. rewrite Hslugs. reflexivity.
Qed.

(** X14: when the spreadsheet cannot be read, nothing is filtered: every
    item of such a page is on the work list, those already recorded
    included. *)
Theorem unreadable_sheet_emits_all (data : pyval) (e : exn)
    (offers : list pyval) (slugs : list pyval) :
  path data ["props"; "pageProps"; "data"; "searchAds"; "items"]
    = Ok (PList offers) ->
  (forall offer, In offer offers ->
     exists id, Py.getitem offer "id" = Ok id) ->
  slugs_of offers = Ok slugs ->
  discover (Ok data) (Raise e) = slugs.
Proof.
  intros Hitems Hwf Hslugs. unfold fetch_offers_list, list_new_slugs.
  cbn [ResultMonad.bind]. rewrite Hitems.
  cbn [ResultMonad.bind Py.iterate get_existing_offers].
  assert (Hall : new_offers repr offers [] = Ok offers).
  { clear Hitems Hslugs. induction offers as [|o rest IH]; [reflexivity|].
    destruct (Hwf o (or_introl eq_refl)) as (id & Hid).
    cbn [new_offers]. rewrite Hid. cbn [ResultMonad.bind].
    unfold is_new. cbn [existsb negb].
    rewrite IH; [reflexivity|].
    intros offer Hin. apply Hwf. right. assumption. }
  rewrite Hall. cbn [ResultMonad.bind]. rewrite Hslugs. reflexivity.
Qed.

Lemma new_offers_missing_id (offers : list pyval)
    (existing_offers : list string) (offer : pyval) (e : exn) :
  In offer offers -> Py.getitem offer "id" = Raise e ->
  exists e', new_offers repr offers existing_offers = Raise e'.
Proof.
  induction offers as [|o rest IH]; intros Hin Hbad; [destruct Hin|].
  cbn [new_offers].
  destruct (Py.getitem o "id") as [id|e0] eqn:Hid;
    [|exists e0; reflexivity].
  destruct Hin as [<- | Hin]; [congruence|].
  destruct (IH Hin Hbad) as [e' He'].
  cbn [ResultMonad.bind].
  destruct (is_new repr existing_offers id);
    rewrite He'; exists e'; reflexivity.
Qed.

(** X15: the work list is empty, without any error being raised, when the
    request for the search page failed, and also when a single item of the
    page has no identifier, however many new offers the page lists. *)
Theorem malformed_page_gives_empty_list (sheet : result worksheet) :
  (forall e, discover (Raise e) sheet = []) /\
  (forall data offers offer e,
      path data ["props"; "pageProps"; "data"; "searchAds"; "items"]
        = Ok (PList offers) ->
      In offer offers ->
      Py.getitem offer "id" = Raise e ->
      discover (Ok data) sheet = []).
Proof.
  split; [reflexivity|].
  intros data offers offer e Hitems Hin Hbad.
  unfold fetch_offers_list, list_new_slugs.
  cbn [ResultMonad.bind]. rewrite Hitems. cbn [ResultMonad.bind Py.iterate].
  destruct (new_offers_missing_id offers (existing sheet) offer e Hin Hbad)
    as [e' He'].
  rewrite He'. reflexivity.
Qed.

End DiscoveryMore.

Section MainFacts.

Variable libm_sin libm_cos : float -> float.
Variable libm_atan2 : float -> float -> float.
Variable stations : station_table.
Variable parse_float : string -> option float.
Variable repr : pyval -> string.
Variable strip : string -> string.

Local Abbreviation run :=
  (main libm_sin libm_cos libm_atan2 stations parse_float repr strip).
Local Abbreviation run_calls :=
  (main_calls libm_sin libm_cos libm_atan2 stations parse_float repr strip).
Local Abbreviation extract :=
  (extract_offer_data libm_sin libm_cos libm_atan2 stations parse_float repr).

(** When no call to the spreadsheet service raises, the function with
    calls is [save_to_sheets], and the script with calls is [main]. *)
Lemma save_to_sheets_calls_no_faults (data : offer_data) (ws : worksheet) :
  save_to_sheets_calls no_faults data ws = (Ok tt, save_to_sheets data ws).
Proof.
  reflexivity.
Qed.

Lemma main_calls_no_faults (argv : list string)
    (spreadsheet_id google_maps_api_key : option string)
    (make_client : string -> result gmaps)
    (fetch_offer_details : string -> result pyval)
    (ws : worksheet) (log : list call) :
  run_calls no_faults argv spreadsheet_id google_maps_api_key make_client
    fetch_offer_details ws log
  = run argv spreadsheet_id google_maps_api_key make_client
      fetch_offer_details ws log.
Proof.
  unfold main_calls, main, process_offer_calls, process_offer.
  destruct argv as [|program [|arg [|more rest]]]; reflexivity.
Qed.

(** What a call of [save_to_sheets] leaves behind: nothing when a call up
    to [append_row] raises, the row without its colour when a later call
    raises, the row and its colour when none does. *)
Lemma save_to_sheets_calls_cases (faults : sheet_faults) (data : offer_data)
    (ws : worksheet) :
  let '(outcome, ws') := save_to_sheets_calls faults data ws in
  (outcome = Ok tt /\ ws' = save_to_sheets data ws /\
   forall c, faults c = None) \/
  (exists e, outcome = Raise e /\ ws' = ws /\
     (faults ServiceAccount = Some e \/ faults OpenByKey = Some e \/
      faults FirstSheet = Some e \/ faults AppendRow = Some e)) \/
  (exists e, outcome = Raise e /\
     ws_rows ws' = ws_rows ws ++ [row_data data] /\
     ws_fills ws' = ws_fills ws /\
     faults AppendRow = None /\
     (faults GetAllValues = Some e \/ faults FormatCell = Some e)).
Proof.
  unfold save_to_sheets_calls.
  destruct (faults ServiceAccount) as [e1|] eqn:H1;
    [right; left; exists e1; repeat split; auto|].
  destruct (faults OpenByKey) as [e2|] eqn:H2;
    [right; left; exists e2; repeat split; auto|].
  destruct (faults FirstSheet) as [e3|] eqn:H3;
    [right; left; exists e3; repeat split; auto|].
  destruct (faults AppendRow) as [e4|] eqn:H4;
    [right; left; exists e4; repeat split; auto 6|].
  destruct (faults GetAllValues) as [e5|] eqn:H5;
    [right; right; exists e5; repeat split; auto|].
  destruct (faults FormatCell) as [e6|] eqn:H6;
    [right; right; exists e6; repeat split; auto|].
  left. repeat split. intros []; assumption.
Qed.

(** X16: a run of the script ends with status 0 or 1 and appends at most
    one row.  With status 0 exactly one row was appended and coloured, the
    row of the record extracted from the page fetched for the slug given
    on the command line, and no call to the spreadsheet service raised.
    With status 1 the worksheet is as it was, unless the record was
    extracted and [get_all_values] or [format] raised after [append_row]
    had succeeded: then the row is in the worksheet, without its
    colour. *)
Theorem run_appends_once_or_not_at_all (faults : sheet_faults)
    (argv : list string)
    (spreadsheet_id google_maps_api_key : option string)
    (make_client : string -> result gmaps)
    (fetch_offer_details : string -> result pyval)
    (ws : worksheet) (log : list call) :
  let '(status, ws', log') :=
    run_calls faults argv spreadsheet_id google_maps_api_key make_client
      fetch_offer_details ws log in
  (status = 1%Z /\ ws' = ws) \/
  (exists program arg key gmaps_client data offer,
     argv = [program; arg] /\
     google_maps_api_key = Some key /\
     make_client key = Ok gmaps_client /\
     fetch_offer_details (strip arg) = Ok data /\
     extract data gmaps_client log = (Ok offer, log') /\
     ((status = 0%Z /\ ws' = save_to_sheets offer ws /\
       forall c, faults c = None) \/
      (status = 1%Z /\
       ws_rows ws' = ws_rows ws ++ [row_data offer] /\
       ws_fills ws' = ws_fills ws /\
       faults AppendRow = None /\
       exists e, faults GetAllValues = Some e \/ faults FormatCell = Some e))).
Proof.
  unfold main_calls.
  destruct argv as [|program [|arg [|more rest]]];
    try (left; split; reflexivity).
  destruct (missing spreadsheet_id); [left; split; reflexivity|].
  destruct google_maps_api_key as [key|]; [|left; split; reflexivity].
  destruct (String.eqb key ""); [left; split; reflexivity|].
  destruct (make_client key) as [gmaps_client|e] eqn:Hclient;
    [|left; split; reflexivity].
  unfold process_offer_calls.
  destruct (fetch_offer_details (strip arg)) as [data|e] eqn:Hfetch;
    [|left; split; reflexivity].
  destruct (extract data gmaps_client log) as [[offer|e] log'] eqn:Hrun;
    [|left; split; reflexivity].
  pose proof (save_to_sheets_calls_cases faults offer ws) as Hsave.
  destruct (save_to_sheets_calls faults offer ws) as [outcome ws'].
  destruct Hsave as [(-> & -> & Hnone)
                    | [(e & -> & -> & _)
                      | (e & -> & Hrows & Hfills & Happend & Hlate)]].
  - right. exists program, arg, key, gmaps_client, data, offer.
    repeat split; trivial. left. repeat split; trivial.
  - left. split; reflexivity.
  - right. exists program, arg, key, gmaps_client, data, offer.
    repeat split; trivial. right. repeat split; trivial.
    exists e. exact Hlate.
Qed.

(** X17: without exactly one argument, or with SPREADSHEET_ID or
    GOOGLE_MAPS_API_KEY unset or empty, the script ends with status 1
    before it builds a client, fetches a page or calls a service:
    worksheet and call log are untouched. *)
Theorem missing_configuration_aborts (argv : list string)
    (spreadsheet_id google_maps_api_key : option string)
    (make_client : string -> result gmaps)
    (fetch_offer_details : string -> result pyval)
    (ws : worksheet) (log : list call) :
  List.length argv <> 2%nat \/ missing spreadsheet_id = true \/
  missing google_maps_api_key = true ->
  run argv spreadsheet_id google_maps_api_key make_client
    fetch_offer_details ws log = (1%Z, ws, log).
Proof.
  intros H. unfold main.
  destruct argv as [|program [|arg [|more rest]]]; try reflexivity.
  destruct H as [H | [H | H]].
  - contradiction H. reflexivity.
  - rewrite H. reflexivity.
  - destruct (missing spreadsheet_id); [reflexivity|].
    destruct google_maps_api_key as [key|]; [|reflexivity].
    simpl in H. rewrite H. reflexivity.
Qed.

End MainFacts.

(** ** The distance from a point to itself *)

Module FloatFacts.

Local Open Scope float_scope.

(** [is_finite] on the specification side. *)
Lemma is_finite_spec (x : float) :
  is_finite x =
  match Prim2SF x with
  | S754_zero _ | S754_finite _ _ _ => true
  | S754_infinity _ | S754_nan => false
  end.
Proof.
  unfold is_finite, is_nan, is_infinity.
  rewrite !FloatAxioms.eqb_spec, abs_spec.
  change (Prim2SF infinity) with (S754_infinity false).
  destruct (Prim2SF x) as [s | [|] | | [|] m e]; try reflexivity;
    unfold SFeqb, SFabs, SFcompare;
    rewrite Z.compare_refl, Pos.compare_cont_refl; reflexivity.
Qed.

(** A finite float is a zero or a number with mantissa and exponent. *)
Lemma is_finite_inv (x : float) :
  is_finite x = true ->
  (exists s, Prim2SF x = S754_zero s) \/
  (exists s m e, Prim2SF x = S754_finite s m e).
Proof.
  rewrite is_finite_spec.
  destruct (Prim2SF x) as [s | s | | s m e]; intros H;
    try discriminate H.
  - left. exists s. reflexivity.
  - right. exists s, m, e. reflexivity.
Qed.

Lemma is_finite_parts (x : float) :
  is_finite x = true -> is_nan x = false /\ is_infinity x = false.
Proof.
  unfold is_finite. intros H. apply negb_true_iff in H.
  apply orb_false_iff in H. exact H.
Qed.

(** [x - x] is [+0] for every finite [x]. *)
Lemma sub_diag (x : float) : is_finite x = true -> x - x = 0.
Proof.
  intros H. apply Prim2SF_inj. rewrite sub_spec.
  change (Prim2SF 0) with (S754_zero false).
  destruct (is_finite_inv x H) as [[s ->] | (s & m & e & ->)].
  - destruct s; reflexivity.
  - unfold SF64sub, SFsub. rewrite Z.sub_diag. reflexivity.
Qed.

(** The sign of a rounded product is the sign it was given. *)
Lemma binary_round_aux_cases (sx : bool) (mx ex : Z) (lx : location) :
  let r := binary_round_aux prec emax sx mx ex lx in
  r = S754_zero sx \/ (exists m e, r = S754_finite sx m e) \/
  r = S754_infinity sx \/ r = S754_nan.
Proof.
  unfold binary_round_aux.
  destruct (shr_fexp prec emax mx ex lx) as [mrs' e'].
  destruct (shr_fexp prec emax _ e' loc_Exact) as [mrs'' e''].
  destruct (shr_m mrs'') as [|m|m].
  - left. reflexivity.
  - destruct (e'' <=? emax - prec)%Z.
    + right. left. exists m, e''. reflexivity.
    + right. right. left. reflexivity.
  - right. right. right. reflexivity.
Qed.

(** A finite square is a non-negative number, and its root is finite. *)
Lemma finite_square_inv (c : float) :
  is_finite (c * c) = true ->
  is_finite c = true /\
  (Prim2SF (c * c) = S754_zero false \/
   exists m e, Prim2SF (c * c) = S754_finite false m e).
Proof.
  intros H. pose proof (is_finite_inv _ H) as Hcases.
  assert (Hc : is_finite c = true).
  { rewrite is_finite_spec. rewrite mul_spec in Hcases.
    destruct (Prim2SF c) as [s | s | | s m e]; trivial;
      destruct Hcases as [[s' Hs] | (s' & m' & e' & Hs)]; discriminate Hs. }
  split; [assumption|].
  rewrite mul_spec in *.
  destruct (is_finite_inv c Hc) as [[s Hs] | (s & m & e & Hs)]; rewrite Hs in *.
  - left. destruct s; reflexivity.
  - unfold SF64mul, SFmul in *.
    pose proof (binary_round_aux_cases (xorb s s) (Z.pos (m * m)) (e + e)
                  loc_Exact) as Hround.
    cbv zeta in Hround. rewrite xorb_nilpotent in *.
    destruct Hround as [Hr | [(m' & e' & Hr) | [Hr | Hr]]]; rewrite Hr in *.
    + left. reflexivity.
    + right. exists m', e'. reflexivity.
    + destruct Hcases as [[s' Hs'] | (s' & m' & e' & Hs')]; discriminate Hs'.
    + destruct Hcases as [[s' Hs'] | (s' & m' & e' & Hs')]; discriminate Hs'.
Qed.

(** A finite square times [0] is [+0]. *)
Lemma square_times_zero (c : float) :
  is_finite (c * c) = true -> c * c * 0 = 0.
Proof.
  intros H. apply Prim2SF_inj. rewrite (mul_spec (c * c) 0).
  change (Prim2SF 0) with (S754_zero false).
  destruct (finite_square_inv c H) as [_ [Hz | (m & e & Hf)]].
  - rewrite Hz. reflexivity.
  - rewrite Hf. reflexivity.
Qed.

(** The wrappers of the [math] module pass a finite result on. *)
Lemma math_1_finite (func : float -> float) (x : float) :
  is_finite (func x) = true -> math_1 func x = Ok (func x).
Proof.
  intros H. destruct (is_finite_parts _ H) as [Hn Hi].
  unfold math_1. rewrite Hn, Hi. reflexivity.
Qed.

Lemma math_2_finite (func : float -> float -> float) (x y : float) :
  is_finite (func x y) = true -> math_2 func x y = Ok (func x y).
Proof.
  intros H. destruct (is_finite_parts _ H) as [Hn Hi].
  unfold math_2. rewrite Hn, Hi. reflexivity.
Qed.

End FloatFacts.

Section SelfDistance.

Variable libm_sin libm_cos : float -> float.
Variable libm_atan2 : float -> float -> float.

Local Open Scope float_scope.

(** X18: the distance from a point to itself is [0.0], for every C library
    with [sin 0 = 0] and [atan2 0 1 = 0], provided the coordinates in
    radians are finite and the cosine of the latitude has a finite
    square. *)
Theorem self_distance_is_zero (lat lon : float) :
  is_finite (lat * degToRad) = true ->
  is_finite (lon * degToRad) = true ->
  libm_sin 0 = 0 ->
  libm_atan2 0 1 = 0 ->
  is_finite (libm_cos (lat * degToRad) * libm_cos (lat * degToRad)) = true ->
  calculate_distance libm_sin libm_cos libm_atan2
    (PFloat lat) (PFloat lon) (PFloat lat) (PFloat lon) = Ok 0.
Proof.
  intros Hlat Hlon Hsin Hatan Hcos.
  destruct (FloatFacts.finite_square_inv _ Hcos) as [Hc _].
  unfold calculate_distance, radians, as_double.
  cbn [ResultMonad.bind].
  rewrite (FloatFacts.sub_diag _ Hlat), (FloatFacts.sub_diag _ Hlon).
  change (0 / 2) with 0.
  unfold math_sin, math_cos, math_atan2, math_sqrt.
  rewrite (FloatFacts.math_1_finite libm_sin 0)
    by (rewrite Hsin; reflexivity).
  rewrite Hsin. cbn [ResultMonad.bind].
  change (pow2 0) with (Ok 0). cbn [ResultMonad.bind].
  rewrite (FloatFacts.math_1_finite libm_cos _ Hc). cbn [ResultMonad.bind].
  rewrite (FloatFacts.square_times_zero _ Hcos).
  change (0 + 0) with 0.
  change (math_1 PrimFloat.sqrt 0) with (Ok 0). cbn [ResultMonad.bind].
  change (math_1 PrimFloat.sqrt (1 - 0)) with (Ok 1). cbn [ResultMonad.bind].
  rewrite (FloatFacts.math_2_finite libm_atan2 0 1)
    by (rewrite Hatan; reflexivity).
  rewrite Hatan. reflexivity.
Qed.

End SelfDistance.

(** ** Which offers qualify *)

Lemma leb_trans (a b c : float) :
  (a <=? b)%float = true -> (b <=? c)%float = true -> (a <=? c)%float = true.
Proof.
  intros H1 H2.
  destruct (leb_comparable _ _ H1) as [Ha Hb].
  destruct (leb_comparable _ _ H2) as [_ Hc].
  apply (leb_rank _ _ Ha Hb) in H1. apply (leb_rank _ _ Hb Hc) in H2.
  apply (leb_rank _ _ Ha Hc).
  rewrite lex_compare_Gt, lex_compare_Lt in *.
  destruct (sf_rank (Prim2SF a)) as [[a1 a2] a3],
    (sf_rank (Prim2SF b)) as [[b1 b2] b3],
    (sf_rank (Prim2SF c)) as [[c1 c2] c3].
  lia.
Qed.

(** With distinct keys the lookup of a key returns the entry's value. *)
Lemma dict_get_NoDup {V : Type} (d : list (string * V)) (k : string) (v : V) :
  NoDup (map fst d) -> In (k, v) d -> dict_get d k = Ok v.
Proof.
  induction d as [|[k' v'] rest IH]; simpl; intros Hnd Hin; [destruct Hin|].
  inversion Hnd as [|? ? Hfresh Hrest]; subst.
  destruct Hin as [Heq | Hin].
  - injection Heq as -> ->. rewrite String.eqb_refl. reflexivity.
  - destruct (String.eqb k' k) eqn:E; [|apply IH; assumption].
    apply String.eqb_eq in E. subst k'. exfalso. apply Hfresh.
    apply (in_map fst) in Hin. exact Hin.
Qed.

Section Qualification.

Variable libm_sin libm_cos : float -> float.
Variable libm_atan2 : float -> float -> float.
Variable stations : station_table.

Local Open Scope float_scope.

Local Abbreviation dist := (station_distance libm_sin libm_cos libm_atan2).
Local Abbreviation check :=
  (should_process_offer libm_sin libm_cos libm_atan2 stations).
Local Abbreviation measurable := (measurable libm_sin libm_cos libm_atan2).

(** X19: over a non-empty table with distinct station names, all of whose
    distances to the query point are ordinary numbers,
    [should_process_offer] returns, with a station of least distance and
    its coordinates, and its flag is true exactly when some station of
    the table lies within [1.0] km of the point. *)
Theorem qualifies_iff_a_station_is_near (lat lon : pyval) :
  stations <> [] ->
  NoDup (map fst stations) ->
  forallb (measurable lat lon) stations = true ->
  exists name c d,
    check lat lon = Ok (d <=? 1, Some name, c) /\
    In (name, c) stations /\
    dist lat lon c = Ok d /\
    (forall n' c' d', In (n', c') stations -> dist lat lon c' = Ok d' ->
                      (d <=? d') = true) /\
    ((d <=? 1) = true <->
     exists n' c' d', In (n', c') stations /\ dist lat lon c' = Ok d' /\
                      (d' <=? 1) = true).
Proof.
  intros Hne Hnd Hall.
  destruct (scan_stations_spec libm_sin libm_cos libm_atan2 lat lon stations
              Hall None infinity) as
    [[_ Hnone] | (pre & name & c & post & d & Hsplit & Hrun & Hd & Hbeat & Hpre & Hpost)].
  - destruct stations as [|[n0 c0] rest]; [contradiction Hne; reflexivity|].
    destruct (measurable_In libm_sin libm_cos libm_atan2 lat lon _ n0 c0
                Hall (or_introl eq_refl)) as (d0 & Hd0 & Hfin0).
    unfold below_inf in Hfin0.
    rewrite (Hnone n0 c0 d0 (or_introl eq_refl) Hd0) in Hfin0.
    discriminate Hfin0.
  - assert (Hin : In (name, c) stations)
      by (rewrite Hsplit; apply in_or_app; right; left; reflexivity).
    assert (Hmin : forall n' c' d', In (n', c') stations ->
               dist lat lon c' = Ok d' -> (d <=? d') = true).
    { intros n' c' d' Hin' Hd'. rewrite Hsplit in Hin'.
      apply in_app_or in Hin'. destruct Hin' as [Hin' | [Heq | Hin']].
      - apply ltb_leb_weaken. eapply Hpre; eassumption.
      - injection Heq as <- <-. rewrite Hd in Hd'. injection Hd' as <-.
        apply eqb_leb. rewrite FloatAxioms.eqb_spec. unfold SFeqb.
        destruct (ltb_comparable _ _ Hbeat) as [Hn _].
        rewrite (SFcompare_rank _ _ Hn Hn).
        assert (Hr : lex_compare (sf_rank (Prim2SF d)) (sf_rank (Prim2SF d))
                     = Eq) by (apply lex_compare_Eq; reflexivity).
        rewrite Hr. reflexivity.
      - eapply Hpost; eassumption. }
    exists name, c, d. repeat split; trivial.
    + unfold should_process_offer, find_closest_metro_station.
      rewrite Hrun. cbn [ResultMonad.bind station_lookup].
      rewrite (dict_get_NoDup stations name c Hnd Hin).
      cbn [ResultMonad.bind]. unfold station_distance in Hd. rewrite Hd.
      reflexivity.
    + intros Hnear. exists name, c, d. repeat split; assumption.
    + intros (n' & c' & d' & Hin' & Hd' & Hnear).
      eapply leb_trans; [|exact Hnear]. eapply Hmin; eassumption.
Qed.

End Qualification.

(** ** The distance is symmetric *)

Module FloatSign.

Import FloatFacts.
Local Open Scope float_scope.

(** Rounding does not look at the sign. *)
Lemma binary_round_aux_opp (s : bool) (m e : Z) (l : location) :
  binary_round_aux prec emax (negb s) m e l
  = SFopp (binary_round_aux prec emax s m e l).
Proof.
  unfold binary_round_aux.
  destruct (shr_fexp prec emax m e l) as [mrs' e'].
  destruct (shr_fexp prec emax _ e' loc_Exact) as [mrs'' e''].
  destruct (shr_m mrs'') as [|p|p]; [reflexivity | | reflexivity].
  destruct (e'' <=? emax - prec)%Z; reflexivity.
Qed.

Lemma binary_round_opp (s : bool) (m : positive) (e : Z) :
  binary_round prec emax (negb s) m e = SFopp (binary_round prec emax s m e).
Proof.
  unfold binary_round. destruct (shl_align m e _) as [mz ez].
  apply binary_round_aux_opp.
Qed.

Ltac split_signs :=
  repeat match goal with b : bool |- _ => destruct b end.

(** Swapping the operands of a subtraction changes the sign of the result,
    or nothing when the result is [+0] or NaN. *)
Lemma SFsub_swap (x y : spec_float) :
  SF64sub y x = SFopp (SF64sub x y) \/ SF64sub y x = SF64sub x y.
Proof.
  unfold SF64sub.
  destruct x as [sx | sx | | sx mx ex], y as [sy | sy | | sy my ey];
    try solve [split_signs; simpl; auto].
  unfold SFsub. rewrite (Z.min_comm ey ex).
  set (ez := Z.min ex ey).
  set (a := cond_Zopp sx (Z.pos (fst (shl_align mx ex ez)))).
  set (b := cond_Zopp sy (Z.pos (fst (shl_align my ey ez)))).
  replace (b - a)%Z with (- (a - b))%Z by lia.
  destruct (a - b)%Z as [|p|p]; simpl.
  - right. reflexivity.
  - left. apply (binary_round_opp false).
  - left. rewrite <- (binary_round_opp true). reflexivity.
Qed.

Lemma SFdiv_opp (x y : spec_float) :
  SF64div (SFopp x) y = SFopp (SF64div x y).
Proof.
  unfold SF64div.
  destruct x as [sx | sx | | sx mx ex], y as [sy | sy | | sy my ey];
    try solve [split_signs; reflexivity].
  simpl. destruct (SFdiv_core_binary prec emax (Z.pos mx) ex (Z.pos my) ey)
    as [[mz ez] lz].
  rewrite <- negb_xorb_l. apply binary_round_aux_opp.
Qed.

Lemma SFmul_opp_opp (x : spec_float) :
  SF64mul (SFopp x) (SFopp x) = SF64mul x x.
Proof.
  unfold SF64mul. destruct x as [sx | sx | | sx mx ex];
    split_signs; reflexivity.
Qed.

Lemma SFmul_opp_l (x y : spec_float) :
  SF64mul (SFopp x) y = SFopp (SF64mul x y).
Proof.
  unfold SF64mul.
  destruct x as [sx | sx | | sx mx ex], y as [sy | sy | | sy my ey];
    try solve [split_signs; reflexivity].
  simpl. rewrite <- negb_xorb_l. apply binary_round_aux_opp.
Qed.

Lemma SFmul_comm (x y : spec_float) : SF64mul x y = SF64mul y x.
Proof.
  unfold SF64mul.
  destruct x as [sx | sx | | sx mx ex], y as [sy | sy | | sy my ey];
    try solve [split_signs; reflexivity].
  simpl. rewrite (xorb_comm sy sx), (Pos.mul_comm my mx), (Z.add_comm ey ex).
  reflexivity.
Qed.

(** The same on primitive floats. *)
Lemma sub_swap (x y : float) : y - x = - (x - y) \/ y - x = x - y.
Proof.
  destruct (SFsub_swap (Prim2SF x) (Prim2SF y)) as [H | H].
  - left. apply Prim2SF_inj. rewrite opp_spec, !sub_spec. exact H.
  - right. apply Prim2SF_inj. rewrite !sub_spec. exact H.
Qed.

Lemma div_opp (x y : float) : (- x) / y = - (x / y).
Proof.
  apply Prim2SF_inj. rewrite opp_spec, !div_spec, opp_spec.
  apply SFdiv_opp.
Qed.

Lemma mul_opp_opp (x : float) : (- x) * (- x) = x * x.
Proof.
  apply Prim2SF_inj. rewrite !mul_spec, opp_spec. apply SFmul_opp_opp.
Qed.

Lemma mul_opp_l (x y : float) : (- x) * y = - (x * y).
Proof.
  apply Prim2SF_inj. rewrite opp_spec, !mul_spec, opp_spec.
  apply SFmul_opp_l.
Qed.

Lemma mul_comm (x y : float) : x * y = y * x.
Proof.
  apply Prim2SF_inj. rewrite !mul_spec. apply SFmul_comm.
Qed.

Lemma is_nan_spec (x : float) :
  is_nan x = match Prim2SF x with S754_nan => true | _ => false end.
Proof.
  unfold is_nan. rewrite FloatAxioms.eqb_spec.
  destruct (Prim2SF x) as [s | [|] | | [|] m e]; try reflexivity;
    unfold SFeqb, SFcompare;
    rewrite Z.compare_refl, Pos.compare_cont_refl; reflexivity.
Qed.

Lemma is_infinity_spec (x : float) :
  is_infinity x
  = match Prim2SF x with S754_infinity _ => true | _ => false end.
Proof.
  unfold is_infinity. rewrite FloatAxioms.eqb_spec, abs_spec.
  change (Prim2SF infinity) with (S754_infinity false).
  destruct (Prim2SF x) as [s | s | | s m e]; reflexivity.
Qed.

Lemma is_nan_opp (x : float) : is_nan (- x) = is_nan x.
Proof.
  rewrite !is_nan_spec, opp_spec. destruct (Prim2SF x); reflexivity.
Qed.

Lemma is_infinity_opp (x : float) : is_infinity (- x) = is_infinity x.
Proof.
  rewrite !is_infinity_spec, opp_spec. destruct (Prim2SF x); reflexivity.
Qed.

Lemma is_finite_opp (x : float) : is_finite (- x) = is_finite x.
Proof.
  unfold is_finite. rewrite is_nan_opp, is_infinity_opp. reflexivity.
Qed.

(** The only exception of the one-argument wrapper is [ValueError]. *)
Lemma math_1_raises (func : float -> float) (x : float) (e : exn) :
  math_1 func x = Raise e -> e = ValueError.
Proof.
  unfold math_1.
  destruct (is_nan (func x) && negb (is_nan x));
    [intros H; injection H as <-; reflexivity|].
  destruct (is_infinity (func x) && is_finite x); intros H;
    [injection H as <-; reflexivity | discriminate H].
Qed.

Lemma math_1_opp (func : float -> float) (x : float) :
  func (- x) = - func x ->
  math_1 func (- x)
  = match math_1 func x with
    | Ok r => Ok (- r)
    | Raise e => Raise e
    end.
Proof.
  intros Hodd. unfold math_1. rewrite Hodd.
  rewrite !is_nan_opp, is_infinity_opp, is_finite_opp.
  destruct (is_nan (func x) && negb (is_nan x)); [reflexivity|].
  destruct (is_infinity (func x) && is_finite x); reflexivity.
Qed.

Lemma pow2_opp (x : float) : pow2 (- x) = pow2 x.
Proof.
  unfold pow2. rewrite mul_opp_opp, is_finite_opp. reflexivity.
Qed.

End FloatSign.

Section Symmetry.

Variable libm_sin libm_cos : float -> float.
Variable libm_atan2 : float -> float -> float.

Hypothesis sin_odd : forall x, libm_sin (- x) = (- libm_sin x)%float.

Local Open Scope float_scope.

Local Abbreviation sin := (math_sin libm_sin).
Local Abbreviation cos := (math_cos libm_cos).

(** The squared sine of half a difference does not depend on the order of
    the two operands. *)
Lemma sin_square_swap {B : Type} (x y : float) (k : float -> result B) :
  ResultMonad.bind (sin ((y - x) / 2))
    (fun s => ResultMonad.bind (pow2 s) k)
  = ResultMonad.bind (sin ((x - y) / 2))
      (fun s => ResultMonad.bind (pow2 s) k).
Proof.
  destruct (FloatSign.sub_swap x y) as [H | H]; rewrite H; [|reflexivity].
  rewrite FloatSign.div_opp. unfold math_sin.
  rewrite (FloatSign.math_1_opp libm_sin _ (sin_odd _)).
  destruct (math_1 libm_sin ((x - y) / 2)) as [r|e]; [|reflexivity].
  cbn [ResultMonad.bind]. rewrite FloatSign.pow2_opp. reflexivity.
Qed.

(** X20: the distance is symmetric: for a C library whose sine is odd,
    [calculate_distance] gives the same result, value or exception, when
    the two points are exchanged. *)
Theorem distance_is_symmetric (lat1 lon1 lat2 lon2 : float) :
  calculate_distance libm_sin libm_cos libm_atan2
    (PFloat lat1) (PFloat lon1) (PFloat lat2) (PFloat lon2)
  = calculate_distance libm_sin libm_cos libm_atan2
      (PFloat lat2) (PFloat lon2) (PFloat lat1) (PFloat lon1).
Proof.
  unfold calculate_distance, radians, as_double.
  cbn [ResultMonad.bind].
  rewrite (sin_square_swap (lat2 * degToRad) (lat1 * degToRad)).
  destruct (sin ((lat2 * degToRad - lat1 * degToRad) / 2)) as [s1|e];
    [|reflexivity].
  cbn [ResultMonad.bind].
  destruct (pow2 s1) as [p1|e]; [|reflexivity].
  cbn [ResultMonad.bind].
  destruct (cos (lat1 * degToRad)) as [c1|e1] eqn:H1,
    (cos (lat2 * degToRad)) as [c2|e2] eqn:H2;
    cbn [ResultMonad.bind]; try reflexivity.
  - rewrite (sin_square_swap (lon2 * degToRad) (lon1 * degToRad)).
    rewrite (FloatSign.mul_comm c2 c1). reflexivity.
  - unfold math_cos in H1, H2.
    rewrite (FloatSign.math_1_raises _ _ _ H1),
      (FloatSign.math_1_raises _ _ _ H2).
    reflexivity.
Qed.

End Symmetry.

(** ** The appended offer and the next discovery *)

Section AppendThenDiscover.

Variable repr : pyval -> string.
Variable cell_text : pyval -> string.

Local Open Scope string_scope.

Local Abbreviation existing := (get_existing_offers cell_text).
Local Abbreviation discover := (fetch_offers_list repr cell_text).





End AppendThenDiscover.

(** ** More runs on the sample data *)

Module Checks.

Import Sample Cases.
Local Open Scope string_scope.
Local Open Scope float_scope.

Local Abbreviation centrum := (52.2297, 21.0122).

(** The station found from half a kilometre north of "Centrum". *)
Lemma found_station_is_key_witness :
  find_closest (PFloat 52.2342) (PFloat 21.0122) = Ok (Some "Centrum") /\
  (exists c, In ("Centrum", c) stations) /\
  exists c, station_lookup stations (Some "Centrum") = Ok c.
Proof.
  split; [vm_compute; reflexivity|].
  apply (found_station_is_key series_sin series_cos series_atan2 stations
           (PFloat 52.2342) (PFloat 21.0122)).
  vm_compute; reflexivity.
Defined.

(** A latitude that is NaN: every distance is NaN and nothing is found. *)
Lemma finds_nothing_iff_witness :
  find_closest (PFloat nan) (PFloat 21.0122) = Ok None /\
  (@None string = None <->
   forall n c d, In (n, c) stations ->
     station_distance series_sin series_cos series_atan2
       (PFloat nan) (PFloat 21.0122) c = Ok d ->
     (d <? infinity) = false).
Proof.
  split; [vm_compute; reflexivity|].
  apply (finds_nothing_iff series_sin series_cos series_atan2 stations
           (PFloat nan) (PFloat 21.0122) None).
  vm_compute; reflexivity.
Defined.

(** Coordinates that are JSON null. *)
Lemma non_numeric_coordinate_raises_witness :
  stations <> [] /\
  as_double PNone = Raise TypeError /\
  find_closest PNone PNone = Raise TypeError /\
  should_process PNone PNone = Raise TypeError.
Proof.
  split; [discriminate|]. split; [reflexivity|].
  apply (non_numeric_coordinate_raises series_sin series_cos series_atan2
           stations PNone PNone).
  - discriminate.
  - left. reflexivity.
Defined.

(** The language model answering and failing. *)
Lemma analysis_never_raises_witness :
  analyze_offer_with_llm lm_answers "Dwa pokoje." []
    = (Ok {| analysis_available_from := PStr "Immediately";
             analysis_total_monthly_cost := PStr "3500 PLN";
             analysis_key_advantages := PStr "Balcony" |},
       [LanguageModel "Dwa pokoje."]) /\
  analyze_offer_with_llm lm_fails "Dwa pokoje." []
    = (Ok {| analysis_available_from := PStr "Error in analysis";
             analysis_total_monthly_cost := PStr "Error in analysis";
             analysis_key_advantages := PStr "Error in analysis" |},
       [LanguageModel "Dwa pokoje."]).
Proof.
  destruct (analysis_never_raises lm_answers "Dwa pokoje." [])
    as (a1 & Hrun1 & Hok1 & _).
  destruct (analysis_never_raises lm_fails "Dwa pokoje." [])
    as (a2 & Hrun2 & _ & Hbad2).
  rewrite Hrun1, Hrun2.
  rewrite (Hok1 _ _ _ eq_refl), (Hbad2 _ eq_refl). split; reflexivity.
Defined.

(** The area of the sample advertisement is that of its third
    characteristic. *)
Lemma find_area_first_match_witness :
  find_area sample_characteristics = Ok (PStr "45") /\
  ((PStr "45" = NA /\
    forall feature, In feature sample_characteristics ->
      exists label, Py.getitem feature "label" = Ok label /\
                    Py.eq_str label "Powierzchnia" = false)
   \/
   (exists before feature after label,
       sample_characteristics = before ++ feature :: after /\
       Py.getitem feature "label" = Ok label /\
       Py.eq_str label "Powierzchnia" = true /\
       Py.getitem feature "value" = Ok (PStr "45") /\
       forall earlier, In earlier before ->
         exists label', Py.getitem earlier "label" = Ok label' /\
                        Py.eq_str label' "Powierzchnia" = false))%list.
Proof.
  split; [reflexivity|].
  apply (find_area_first_match sample_characteristics (PStr "45")).
  reflexivity.
Defined.

(** Of the four sample characteristics only the number of rooms is
    listed. *)
Lemma detail_lines_skip_costs_witness :
  detail_lines repr_opaque sample_characteristics
    = Ok ["- Liczba pokoi: 2"] /\
  (forall char key,
     In char sample_characteristics ->
     Py.getitem char "key" = Ok key ->
     Py.in_strs key ["price"; "rent"; "m"] = false ->
     exists label value,
       Py.getitem char "label" = Ok label /\
       Py.getitem char "localizedValue" = Ok value /\
       In ("- " ++ Py.str repr_opaque label ++ ": "
             ++ Py.str repr_opaque value)
          ["- Liczba pokoi: 2"]).
Proof.
  split; [reflexivity|].
  destruct (detail_lines_skip_costs repr_opaque sample_characteristics
              ["- Liczba pokoi: 2"] eq_refl) as (_ & Hcomplete & _).
  exact Hcomplete.
Defined.

(** The address of the sample advertisement, and of one without a street
    name. *)
Lemma full_address_joins_names_witness :
  full_address (ad_at 52.2297 21.0122)
    = Ok "Marszalkowska, Srodmiescie, Warszawa" /\
  full_address ad_without_street = Ok "Mokotow, Warszawa".
Proof.
  split.
  - apply (full_address_joins_names (ad_at 52.2297 21.0122)
             "Marszalkowska" "Srodmiescie" "Warszawa"); reflexivity.
  - apply (full_address_joins_names ad_without_street
             "" "Mokotow" "Warszawa"); reflexivity.
Defined.

(** An advertisement whose street name is the number 7, and one whose
    street name is null. *)
Lemma full_address_names_must_be_text_witness :
  let numbered :=
    PDict [ ("location", PDict [ ("address",
      PDict [ ("street", PDict [ ("name", PInt 7) ]);
              ("district", named "Mokotow");
              ("city", named "Warszawa") ]) ]) ] in
  let unnamed :=
    PDict [ ("location", PDict [ ("address",
      PDict [ ("street", PDict [ ("name", PNone) ]);
              ("district", named "Mokotow");
              ("city", named "Warszawa") ]) ]) ] in
  full_address numbered = Raise TypeError /\
  full_address unnamed = Ok "Mokotow, Warszawa".
Proof.
  intros numbered unnamed. split.
  - destruct (full_address_names_must_be_text numbered
                (PInt 7) (PStr "Mokotow") (PStr "Warszawa")
                eq_refl eq_refl eq_refl) as [Hbad _].
    apply Hbad. exists (PInt 7). repeat split. left. reflexivity.
  - destruct (full_address_names_must_be_text unnamed
                PNone (PStr "Mokotow") (PStr "Warszawa")
                eq_refl eq_refl eq_refl) as [_ Hnull].
    apply (Hnull eq_refl "Mokotow" "Warszawa"); reflexivity.
Defined.

(** The run on the listing at "Centrum" makes calls, and its check gave
    true. *)
Lemma provider_calls_need_threshold_witness :
  snd (extract listing_near client_ok []) <> [] /\
  exists ad lat lon closest c,
    offer_coordinates listing_near = Ok (ad, lat, lon) /\
    should_process lat lon = Ok (true, closest, c).
Proof.
  assert (Hcalls : snd (extract listing_near client_ok []) <> [])
    by (vm_compute; discriminate).
  split; [exact Hcalls|].
  exact (provider_calls_need_threshold series_sin series_cos series_atan2
           stations parse_decimal repr_opaque listing_near client_ok []
           Hcalls).
Defined.

(** The record of the listing at "Centrum". *)
Lemma record_fields_come_from_listing_witness :
  exists offer log',
    extract listing_near client_ok [] = (Ok offer, log') /\
    offer_id offer = PInt 65432100 /\
    exists ad lat lon name,
      offer_coordinates listing_near = Ok (ad, lat, lon) /\
      closest_metro offer = Some name /\
      find_closest lat lon = Ok (Some name) /\
      (exists c, In (name, c) stations) /\
      Py.getitem ad "url" = Ok (full_url offer) /\
      Py.getitem ad "id" = Ok (offer_id offer) /\
      Py.getitem ad "slug" = Ok (slug offer) /\
      full_address ad = Ok (address offer) /\
      exists characteristics items,
        Py.getitem ad "characteristics" = Ok characteristics /\
        Py.iterate characteristics = Ok items /\
        find_area items = Ok (area offer).
Proof.
  eexists. eexists. split; [vm_compute; reflexivity|].
  split; [reflexivity|].
  eapply (record_fields_come_from_listing series_sin series_cos series_atan2
            stations parse_decimal repr_opaque listing_near client_ok []).
  vm_compute; reflexivity.
Defined.

(** The description of the record of the far listing is the listing's
    own. *)
Lemma record_description_witness :
  exists offer log',
    extract listing_far client_ok [] = (Ok offer, log') /\
    description offer = PStr "Dwa pokoje, blisko metra." /\
    exists ad lat lon flag closest c,
      offer_coordinates listing_far = Ok (ad, lat, lon) /\
      should_process lat lon = Ok (flag, closest, c) /\
      (flag = false ->
       Py.getitem ad "description" = Ok (description offer)) /\
      (flag = true ->
       exists text original,
         description offer = PStr text /\
         Py.getitem ad "description" = Ok (PStr original) /\
         comprehensive_description repr_opaque ad closest
           (walking_time offer) (transit_time offer) = Ok text).
Proof.
  eexists. eexists. split; [vm_compute; reflexivity|].
  split; [reflexivity|].
  eapply (record_description series_sin series_cos series_atan2
            stations parse_decimal repr_opaque listing_far client_ok []).
  vm_compute; reflexivity.
Defined.

(** Of three offers on the page the recorded one is left out. *)
Lemma work_list_is_filter_witness :
  path page_mixed ["props"; "pageProps"; "data"; "searchAds"; "items"]
    = Ok (PList [ item 222 "b-ID2"; item 111 "a-ID1"; item 333 "c-ID3" ]) /\
  discover (Ok page_mixed) (Ok sheet_with_offer)
    = [PStr "b-ID2"; PStr "c-ID3"].
Proof.
  split; [reflexivity|]. unfold discover.
  rewrite (work_list_is_filter repr_opaque (Py.str repr_opaque)
             page_mixed (Ok sheet_with_offer)
             [ item 222 "b-ID2"; item 111 "a-ID1"; item 333 "c-ID3" ]
             eq_refl).
  - vm_compute; reflexivity.
  - intros offer [<- | [<- | [<- | []]]];
      eexists; eexists; split; reflexivity.
Defined.

(** With the spreadsheet out of reach the recorded offer is emitted too. *)
Lemma unreadable_sheet_emits_all_witness :
  slugs_of [ item 222 "b-ID2"; item 111 "a-ID1"; item 333 "c-ID3" ]
    = Ok [PStr "b-ID2"; PStr "a-ID1"; PStr "c-ID3"] /\
  discover (Ok page_mixed) (Raise ServiceError)
    = [PStr "b-ID2"; PStr "a-ID1"; PStr "c-ID3"].
Proof.
  split; [reflexivity|].
  apply (unreadable_sheet_emits_all repr_opaque (Py.str repr_opaque)
           page_mixed ServiceError
           [ item 222 "b-ID2"; item 111 "a-ID1"; item 333 "c-ID3" ]).
  - reflexivity.
  - intros offer [<- | [<- | [<- | []]]]; eexists; reflexivity.
  - reflexivity.
Defined.

(** One item without identifier: the new offer next to it is lost. *)
Lemma malformed_page_gives_empty_list_witness :
  In (item_without_id "x-ID9") [ item 222 "b-ID2"; item_without_id "x-ID9" ] /\
  Py.getitem (item_without_id "x-ID9") "id" = Raise KeyError /\
  discover (Ok page_broken) (Ok sheet_with_header) = [].
Proof.
  split; [right; left; reflexivity|]. split; [reflexivity|].
  destruct (malformed_page_gives_empty_list repr_opaque (Py.str repr_opaque)
              (Ok sheet_with_header)) as [_ Hbroken].
  apply (Hbroken page_broken
           [ item 222 "b-ID2"; item_without_id "x-ID9" ]
           (item_without_id "x-ID9") KeyError).
  - reflexivity.
  - right. left. reflexivity.
  - reflexivity.
Defined.

(** A run without SPREADSHEET_ID. *)
Lemma missing_configuration_aborts_witness :
  missing None = true /\
  run_main ["otodom_parser.py"; "mieszkanie-2-pokoje-ID4abcd"]
    None (Some "AIza-key") client_for fetch_near sheet_with_header []
    = (1%Z, sheet_with_header, []).
Proof.
  split; [reflexivity|].
  apply (missing_configuration_aborts series_sin series_cos series_atan2
           stations parse_decimal repr_opaque strip_none).
  right. left. reflexivity.
Defined.

(** A complete run appends the row of the sample offer; a run whose fetch
    fails leaves the worksheet alone. *)
Example run_main_examples :
  (exists ws' log',
      run_main ["otodom_parser.py"; "mieszkanie-2-pokoje-ID4abcd"]
        (Some "sheet-1") (Some "AIza-key") client_for fetch_near
        sheet_with_header [] = (0%Z, ws', log') /\
      List.length (ws_rows ws') = 2%nat /\
      List.length log' = 2%nat) /\
  run_main ["otodom_parser.py"; "mieszkanie-2-pokoje-ID4abcd"]
    (Some "sheet-1") (Some "AIza-key") client_for fetch_fails
    sheet_with_header [] = (1%Z, sheet_with_header, []).
Proof.
  split; [|reflexivity].
  eexists. eexists. split; [vm_compute; reflexivity|].
  split; reflexivity.
Qed.

(** Runs with a failing spreadsheet service: when the worksheet cannot be
    opened nothing is written; when reading it back fails after the
    append, the run ends with status 1 and the row is there, uncoloured. *)
Example run_main_with_failing_service :
  Faults.run_main_calls Faults.open_fails
    ["otodom_parser.py"; "mieszkanie-2-pokoje-ID4abcd"]
    (Some "sheet-1") (Some "AIza-key") client_for fetch_near
    sheet_with_header []
  = (1%Z, sheet_with_header,
     [DistanceMatrix Walking (PFloat 52.2297, PFloat 21.0122)
        (PFloat 52.2297, PFloat 21.0122);
      DistanceMatrix Transit (PFloat 52.2297, PFloat 21.0122)
        (PFloat 52.2297, PFloat 21.0122)]) /\
  exists ws' log',
    Faults.run_main_calls Faults.read_back_fails
      ["otodom_parser.py"; "mieszkanie-2-pokoje-ID4abcd"]
      (Some "sheet-1") (Some "AIza-key") client_for fetch_near
      sheet_with_header [] = (1%Z, ws', log') /\
    List.length (ws_rows ws') = 2%nat /\
    hd PNone (last (ws_rows ws') []) = PStr "GREEN" /\
    ws_fills ws' = [].
Proof.
  split; [vm_compute; reflexivity|].
  eexists. eexists. split; [vm_compute; reflexivity|].
  repeat split.
Qed.


(** The distance from "Centrum" to itself. *)
Lemma self_distance_is_zero_witness :
  is_finite (52.2297 * degToRad) = true /\
  is_finite (21.0122 * degToRad) = true /\
  series_sin 0 = 0 /\
  series_atan2 0 1 = 0 /\
  is_finite (series_cos (52.2297 * degToRad)
             * series_cos (52.2297 * degToRad)) = true /\
  distance (PFloat 52.2297) (PFloat 21.0122) (PFloat 52.2297) (PFloat 21.0122)
    = Ok 0.
Proof.
  repeat (split; [vm_compute; reflexivity|]).
  apply (self_distance_is_zero series_sin series_cos series_atan2
           52.2297 21.0122); vm_compute; reflexivity.
Defined.

(** The sample table has distinct names; from half a kilometre north of
    "Centrum" the offer qualifies. *)
Lemma qualifies_iff_a_station_is_near_witness :
  stations <> [] /\
  NoDup (map fst stations) /\
  forallb (measurable series_sin series_cos series_atan2
             (PFloat 52.2342) (PFloat 21.0122)) stations = true /\
  exists name c d,
    should_process (PFloat 52.2342) (PFloat 21.0122)
      = Ok (d <=? 1, Some name, c) /\
    In (name, c) stations /\
    station_distance series_sin series_cos series_atan2
      (PFloat 52.2342) (PFloat 21.0122) c = Ok d /\
    (forall n' c' d', In (n', c') stations ->
       station_distance series_sin series_cos series_atan2
         (PFloat 52.2342) (PFloat 21.0122) c' = Ok d' ->
       (d <=? d') = true) /\
    ((d <=? 1) = true <->
     exists n' c' d', In (n', c') stations /\
       station_distance series_sin series_cos series_atan2
         (PFloat 52.2342) (PFloat 21.0122) c' = Ok d' /\
       (d' <=? 1) = true).
Proof.
  assert (Hnd : NoDup (map fst stations)).
  { repeat constructor; simpl; intuition discriminate. }
  split; [discriminate|]. split; [exact Hnd|].
  split; [vm_compute; reflexivity|].
  apply (qualifies_iff_a_station_is_near series_sin series_cos series_atan2
           stations (PFloat 52.2342) (PFloat 21.0122)).
  - discriminate.
  - exact Hnd.
  - vm_compute; reflexivity.
Defined.

(** The sine series is odd. *)
Lemma series_sin_odd (x : float) : series_sin (- x) = - series_sin x.
Proof.
  unfold series_sin. cbv zeta.
  rewrite FloatSign.mul_opp_opp. apply FloatSign.mul_opp_l.
Qed.

(** From "Centrum" to "Politechnika" and back. *)
Lemma distance_is_symmetric_witness :
  (forall x, series_sin (- x) = - series_sin x) /\
  distance (PFloat 52.2297) (PFloat 21.0122) (PFloat 52.2189) (PFloat 21.0153)
  = distance (PFloat 52.2189) (PFloat 21.0153)
      (PFloat 52.2297) (PFloat 21.0122).
Proof.
  split; [exact series_sin_odd|].
  apply (distance_is_symmetric series_sin series_cos series_atan2
           series_sin_odd).
Defined.

End Checks.
